(** * Excel -> SQL and blob ETL pipeline: a shallow embedding of [main.py]

    The development follows the function [main] of [src/main.py] top to
    bottom: the object locator, the pandas normalisation of [Sheet1], the
    relational append and the image archive-and-publish loop.

    Python [str] values are byte strings holding the UTF-8 encoding of the
    text; the blob container is a finite map from blob names to contents;
    remote calls thread a world that carries the container, the SQL table,
    the pending outcomes of the remote calls and the log of what happened. *)

From stdpp Require Import base strings list gmap.
From Stdlib Require Import Ascii ZArith DecimalString.

Open Scope string_scope.
Open Scope list_scope.

(** ** Text *)

Module Text.

(** [str.startswith]. *)
Fixpoint startswith (p s : string) : bool :=
  match p, s with
  | EmptyString, _ => true
  | String _ _, EmptyString => false
  | String a p', String b s' => if decide (a = b) then startswith p' s' else false
  end.

(** The operator [needle in hay] on two strings. *)
Fixpoint contains (needle hay : string) : bool :=
  startswith needle hay
  || match hay with
     | EmptyString => false
     | String _ hay' => contains needle hay'
     end.

(** [s[n:]]. *)
Fixpoint skip (n : nat) (s : string) : string :=
  match n, s with
  | O, _ => s
  | S _, EmptyString => EmptyString
  | S k, String _ s' => skip k s'
  end.

(** Membership of a character in a string. *)
Fixpoint occurs (c : ascii) (s : string) : bool :=
  match s with
  | EmptyString => false
  | String a s' => if decide (c = a) then true else occurs c s'
  end.



(** [re.sub(pat, repl, s)] for a pattern of literal characters: matches are
    taken leftmost first and do not overlap.  [pending] counts the characters
    of the current match that are still to be consumed.  An empty pattern
    matches before every character and at the end, as in Python. *)
Fixpoint sub_from (pending : nat) (pat repl s : string) : string :=
  match s with
  | EmptyString =>
      match pending, pat with
      | O, EmptyString => repl
      | _, _ => EmptyString
      end
  | String c s' =>
      match pending with
      | S k => sub_from k pat repl s'
      | O =>
          if startswith pat s then
            match String.length pat with
            | O => repl +:+ String c (sub_from 0 pat repl s')
            | S k => repl +:+ sub_from k pat repl s'
            end
          else String c (sub_from 0 pat repl s')
      end
  end.

Definition re_sub (pat repl s : string) : string := sub_from 0 pat repl s.

End Text.

Import Text.

(** ** Python values and exceptions *)

Module Py.

(** The values a cell of the frame holds in this model: text, an integer,
    the missing-number marker, or [None]. *)
Inductive value :=
| VStr (s : string)
| VInt (n : Z)
| VNaN
| VNone.

#[global] Instance value_eq_dec : EqDecision value.
Proof. solve_decision. Defined.

(** [str(x)], as an f-string formats a value. *)
Definition str (v : value) : string :=
  match v with
  | VStr s => s
  | VInt n => NilZero.string_of_int (Z.to_int n)
  | VNaN => "nan"
  | VNone => "None"
  end.

(** [req.params.get("email")]: a string or [None]. *)
Definition of_param (o : option string) : value :=
  match o with
  | Some s => VStr s
  | None => VNone
  end.

(** Truth value of an optional string: [None] and [""] are false. *)
Definition truthy (o : option string) : bool :=
  match o with
  | Some (String _ _) => true
  | _ => false
  end.

Inductive exn :=
| KeyError (key : string)
| ValueError (msg : string)
| BadZipFile
| IndexError (msg : string)
| ImageError (coordinate : string)
| ServiceError (operation : string).

Definition describe (e : exn) : string :=
  match e with
  | KeyError k => "'" +:+ k +:+ "'"
  | ValueError m => m
  | BadZipFile => "File is not a zip file"
  | IndexError msg => msg
  | ImageError c => "cannot identify image file " +:+ c
  | ServiceError op => op +:+ " failed"
  end.

Inductive result (A : Type) :=
| Ok (a : A)
| Raise (e : exn).
Arguments Ok {A} a.
Arguments Raise {A} e.

End Py.

Import Py.

(** ** The pandas frame *)

Module Frame.

(** A frame is a row count (the index) and named columns, in header order.
    Column labels can repeat once a column has been renamed. *)
Record DataFrame := {
  nrows : nat;
  columns : list (string * list value)
}.

Definition record := list (string * value).

Definition labels (df : DataFrame) : list string := (columns df).*1.

Definition well_formed (df : DataFrame) : Prop :=
  Forall (λ col, length col.2 = nrows df) (columns df).

(** [df.drop(columns=names, errors="ignore")]. *)
Definition drop (names : list string) (df : DataFrame) : DataFrame :=
  {| nrows := nrows df;
     columns := List.filter (λ col, negb (bool_decide (col.1 ∈ names))) (columns df) |}.

(** [df.rename(columns={old: new}, inplace=True)]. *)
Definition rename (old new : string) (df : DataFrame) : DataFrame :=
  {| nrows := nrows df;
     columns := map (λ col, (if decide (col.1 = old) then new else col.1, col.2))
                    (columns df) |}.

(** [df[name] = values]: every column carrying the label is overwritten; a
    new label is appended on the right. *)
Definition setitem (name : string) (values : list value) (df : DataFrame) : DataFrame :=
  {| nrows := nrows df;
     columns :=
       if bool_decide (name ∈ labels df) then
         map (λ col, if decide (col.1 = name) then (name, values) else col) (columns df)
       else columns df ++ [(name, values)] |}.

(** [df[name] = scalar]: the scalar is broadcast over the index. *)
Definition setitem_scalar (name : string) (v : value) (df : DataFrame) : DataFrame :=
  setitem name (replicate (nrows df) v) df.

Definition labelled (name : string) (col : string * list value) : bool :=
  bool_decide (col.1 = name).

(** [df[name]] for a label carried by exactly one column.  A missing label
    raises [KeyError]; a repeated label selects a frame, which the
    assignment of line 74 cannot align with the index. *)
Definition getitem (name : string) (df : DataFrame) : result (list value) :=
  match List.filter (labelled name) (columns df) with
  | [] => Raise (KeyError name)
  | [col] => Ok col.2
  | _ :: _ :: _ => Raise (ValueError "cannot reindex on an axis with duplicate labels")
  end.

(** [df.replace(table, regex=True, inplace=True)]: the pairs are applied in
    order to every text cell; other cells are left alone. *)
Definition replace_text (table : list (string * string)) (s : string) : string :=
  fold_left (λ acc kv, re_sub kv.1 kv.2 acc) table s.

Definition replace_value (table : list (string * string)) (v : value) : value :=
  match v with
  | VStr s => VStr (replace_text table s)
  | _ => v
  end.

Definition replace (table : list (string * string)) (df : DataFrame) : DataFrame :=
  {| nrows := nrows df;
     columns := map (λ col, (col.1, map (replace_value table) col.2)) (columns df) |}.

(** Row [i] as a record, the shape [to_sql] writes. *)
Definition record_at (df : DataFrame) (i : nat) : record :=
  map (λ col, (col.1, default VNaN (col.2 !! i))) (columns df).

Definition records (df : DataFrame) : list record :=
  map (record_at df) (seq 0 (nrows df)).


End Frame.

Import Frame.

(** ** Normalisation of [Sheet1] (lines 61 to 79) *)

Module Normalizer.

(** The f-string of line 75. *)
Definition image_link (container_name : string) (x : value) : string :=
  "/" +:+ container_name +:+ "/DATASET/" +:+ str x +:+ "/" +:+ str x +:+ ".png".

(** The table of line 79. *)
Definition encoding_fixes : list (string * string) :=
  [("Ð¢", "T"); ("Ðš", "K")].

Definition fix_encoding (s : string) : string := replace_text encoding_fixes s.

(** Lines 65 to 71: drop, rename, and the three metadata columns. *)
Definition add_metadata (current_time : string) (user_email : option string)
    (df : DataFrame) : DataFrame :=
  let df := drop ["Unused_Column"] df in
  let df := rename "OldName" "DATASET_ID" df in
  let df := setitem_scalar "Create_date" (VStr current_time) df in
  let df := setitem_scalar "Last_modified" (VStr current_time) df in
  setitem_scalar "Created_by" (of_param user_email) df.

(** Lines 74 to 76. *)
Definition add_image_link (container_name : string) (df : DataFrame) : result DataFrame :=
  match getitem "DATASET_ID" df with
  | Raise e => Raise e
  | Ok ids => Ok (setitem "Image_link" (map (λ x, VStr (image_link container_name x)) ids) df)
  end.

Definition normalize (container_name current_time : string)
    (user_email : option string) (df : DataFrame) : result DataFrame :=
  match add_image_link container_name (add_metadata current_time user_email df) with
  | Raise e => Raise e
  | Ok df => Ok (replace encoding_fixes df)
  end.

End Normalizer.

Import Normalizer.

(** ** Workbooks, blobs and the world of one invocation *)

Module World.

(** An embedded picture either re-encodes to PNG bytes or cannot be read. *)
Inductive picture :=
| Decodable (png : string)
| Undecodable.

(** A cell as the loop sees it: its coordinate and what the image loader
    built at line 98 holds under that coordinate.  The loader keeps its
    pictures in a dictionary that all its instances share, so what it holds
    is a picture of the drawing of the sheet or, where the sheet has none, a
    picture filed under the same coordinate for a sheet scanned before. *)
Record cell := {
  coordinate : string;
  embedded : option picture
}.

(** A picture of the drawing of a sheet, by the cell in which its anchor
    starts: [image.anchor._from.row] and [image.anchor._from.col], both
    counted from 0. *)
Record anchor := {
  anchor_row : nat;
  anchor_col : nat
}.

(** A sheet as the libraries see it: pandas reads [frame], the image loader
    walks the pictures [images] of the drawing, openpyxl iterates
    [iter_rows]. *)
Record worksheet := {
  title : string;
  frame : DataFrame;
  images : list anchor;
  iter_rows : list (list cell)
}.

Definition workbook := list worksheet.

(** The content of a blob: a workbook when it parses as one, bytes
    otherwise. *)
Inductive content :=
| Xlsx (wb : workbook)
| Bytes (data : string).

Inductive event :=
| Info (msg : string)
| Warning (msg : string)
| Error (msg : string)
| ToSql (rows : list record) (ok : bool)
| ImageGet (sheet coord : string) (ok : bool)
| Exists (path : string) (answer : option bool)
| StartCopy (source dest : string) (ok : bool)
| DeleteBlob (path : string) (ok : bool)
| UploadBlob (path : string) (data : string) (ok : bool).

#[global] Instance event_eq_dec : EqDecision event.
Proof. solve_decision. Defined.

(** [faults] lists, in call order, whether each coming remote call (the SQL
    append and the four blob operations of the image loop) raises; once the
    list is used up every call goes through. *)
Record world := {
  blobs : gmap string content;
  table_DATASET : list record;
  faults : list bool;
  log : list event
}.

Definition set_blobs (f : gmap string content → gmap string content) (w : world) : world :=
  {| blobs := f (blobs w); table_DATASET := table_DATASET w;
     faults := faults w; log := log w |}.

Definition append_rows (rows : list record) (w : world) : world :=
  {| blobs := blobs w; table_DATASET := table_DATASET w ++ rows;
     faults := faults w; log := log w |}.

Definition emit (e : event) (w : world) : world :=
  {| blobs := blobs w; table_DATASET := table_DATASET w;
     faults := faults w; log := log w ++ [e] |}.

Definition next_call (w : world) : bool * world :=
  (match faults w with b :: _ => b | [] => false end,
   {| blobs := blobs w; table_DATASET := table_DATASET w;
      faults := tail (faults w); log := log w |}).

(** Computations that read and write the world and may raise. *)
Definition M (A : Type) : Type := world → result A * world.

#[global] Instance M_ret : MRet M := λ A a w, (Ok a, w).
#[global] Instance M_bind : MBind M := λ A B f m w,
  match m w with
  | (Ok a, w') => f a w'
  | (Raise e, w') => (Raise e, w')
  end.

Definition raise {A} (e : exn) : M A := λ w, (Raise e, w).
Definition lift {A} (r : result A) : M A := λ w, (r, w).
Definition tell (e : event) : M unit := λ w, (Ok tt, emit e w).

(** [try: m  except Exception as e: ...]: the outcome of [m] as a value. *)
Definition try_ {A} (m : M A) : M (result A) := λ w,
  match m w with
  | (r, w') => (Ok r, w')
  end.

(** *** Blob operations *)

Definition blob_exists (path : string) : M bool := λ w,
  match next_call w with
  | (true, w') => (Raise (ServiceError "exists"), emit (Exists path None) w')
  | (false, w') =>
      let b := bool_decide (is_Some (blobs w' !! path)) in
      (Ok b, emit (Exists path (Some b)) w')
  end.

(** [start_copy_from_url]: the destination receives the content of the
    source, replacing what it held. *)
Definition start_copy_from_url (source dest : string) : M unit := λ w,
  match next_call w with
  | (true, w') => (Raise (ServiceError "start_copy_from_url"), emit (StartCopy source dest false) w')
  | (false, w') =>
      match blobs w' !! source with
      | None => (Raise (ServiceError "start_copy_from_url"), emit (StartCopy source dest false) w')
      | Some c => (Ok tt, emit (StartCopy source dest true) (set_blobs (insert dest c) w'))
      end
  end.

Definition delete_blob (path : string) : M unit := λ w,
  match next_call w with
  | (true, w') => (Raise (ServiceError "delete_blob"), emit (DeleteBlob path false) w')
  | (false, w') =>
      match blobs w' !! path with
      | None => (Raise (ServiceError "delete_blob"), emit (DeleteBlob path false) w')
      | Some _ => (Ok tt, emit (DeleteBlob path true) (set_blobs (delete path) w'))
      end
  end.

(** [upload_blob(data, overwrite=True)]. *)
Definition upload_blob (path data : string) : M unit := λ w,
  match next_call w with
  | (true, w') => (Raise (ServiceError "upload_blob"), emit (UploadBlob path data false) w')
  | (false, w') => (Ok tt, emit (UploadBlob path data true) (set_blobs (insert path (Bytes data)) w'))
  end.

(** [container_client.list_blobs(name_starts_with=prefix)], in the
    enumeration order of the container. *)
Definition list_blobs (prefix : string) (w : world) : list (string * content) :=
  List.filter (λ b, startswith prefix b.1) (map_to_list (blobs w)).

(** *** The relational append *)

(** [df.to_sql("DATASET", if_exists="append", index=False)]. *)
Definition to_sql (df : DataFrame) : M unit := λ w,
  match next_call w with
  | (true, w') => (Raise (ServiceError "to_sql"), emit (ToSql (records df) false) w')
  | (false, w') => (Ok tt, emit (ToSql (records df) true) (append_rows (records df) w'))
  end.

End World.

Import World.

(** ** The function [main] *)

Module Pipeline.

Record request := { email : option string }.

Inductive response := HttpResponse (body : string) (status_code : nat).

(** What the caller of [main] observes: a response, or an exception that
    no handler caught. *)
Inductive outcome :=
| Returned (r : response)
| Unhandled (e : exn).

(** [f"{user_email}"]. *)
Definition fmt (user_email : option string) : string := str (of_param user_email).

(** *** Object locator (lines 44 to 54) *)

(** The test of line 46. *)
Definition matches (user_email : option string) (name : string) : bool :=
  truthy user_email
  && match user_email with
     | Some e => contains e name
     | None => false
     end.

(** The loop of lines 45 to 49.  The listing and the download are taken to
    go through; the downloader is the blob it was asked for. *)
Fixpoint locate (user_email : option string) (listing : list (string * content))
    : M (option content) :=
  match listing with
  | [] => mret None
  | (name, c) :: rest =>
      if matches user_email name then
        tell (Info ("Found Excel file: " +:+ name));;
        mret (Some c)
      else locate user_email rest
  end.

(** [pd.read_excel(content, sheet_name="Sheet1")]. *)
Definition read_excel (c : content) (sheet_name : string) : result DataFrame :=
  match c with
  | Bytes _ =>
      Raise (ValueError
               "Excel file format cannot be determined, you must specify an engine manually.")
  | Xlsx wb =>
      match List.find (λ s, bool_decide (title s = sheet_name)) wb with
      | Some s => Ok (frame s)
      | None => Raise (ValueError ("Worksheet named '" +:+ sheet_name +:+ "' not found"))
      end
  end.

(** [load_workbook(filename=BytesIO(content))]. *)
Definition load_workbook (c : content) : result workbook :=
  match c with
  | Bytes _ => Raise BadZipFile
  | Xlsx wb => Ok wb
  end.

(** *** Image loop (lines 94 to 123) *)

Definition excluded_cells : list string := ["A1"; "K1"; "L1"; "M3"; "I1"].

Definition ascii_uppercase : string := "ABCDEFGHIJKLMNOPQRSTUVWXYZ".

(** [string.ascii_uppercase[col]]: the letter of a column, for the first
    twenty-six columns only. *)
Definition column_letter (col : nat) : result ascii :=
  match String.get col ascii_uppercase with
  | Some letter => Ok letter
  | None => Raise (IndexError "string index out of range")
  end.

(** The constructor of the loader walks the pictures of the drawing in
    their order and files each under the letter of its column followed by
    the number of its row; the result lists these coordinates.  A picture
    anchored right of column [Z] has no letter. *)
Fixpoint register (pictures : list anchor) : result (list string) :=
  match pictures with
  | [] => Ok []
  | a :: rest =>
      match column_letter (anchor_col a) with
      | Raise e => Raise e
      | Ok letter =>
          match register rest with
          | Raise e => Raise e
          | Ok keys =>
              Ok (String letter (str (VInt (Z.of_nat (anchor_row a + 1)))) :: keys)
          end
      end
  end.

(** Line 98: [image_loader = SheetImageLoader(sheet)], outside the [try]. *)
Definition SheetImageLoader (sheet : worksheet) : M unit :=
  match register (images sheet) with
  | Ok _ => mret tt
  | Raise e => raise e
  end.

Definition file_path (sheet_title : string) : string :=
  "DATASET/" +:+ sheet_title +:+ "/" +:+ sheet_title +:+ ".png".

Definition archive_path (sheet_title current_time : string) : string :=
  "DATASET/" +:+ sheet_title +:+ "/Archive/" +:+ sheet_title +:+ "_" +:+ current_time +:+ ".png".

(** [image_loader.image_in(cell.coordinate)]. *)
Definition image_in (c : cell) : bool :=
  match embedded c with
  | Some _ => true
  | None => false
  end.


(** The test of line 101. *)
Definition candidate (c : cell) : bool :=
  image_in c && negb (bool_decide (coordinate c ∈ excluded_cells)).

(** Lines 103 to 106: read the picture and re-encode it as PNG. *)
Definition image_get (sheet_title : string) (c : cell) : M string :=
  match embedded c with
  | Some (Decodable png) => tell (ImageGet sheet_title (coordinate c) true);; mret png
  | _ => tell (ImageGet sheet_title (coordinate c) false);; raise (ImageError (coordinate c))
  end.

(** Lines 108 to 119. *)
Definition publish (current_time sheet_title png : string) : M unit :=
  let path := file_path sheet_title in
  present ← blob_exists path;
  (if present : bool then
     start_copy_from_url path (archive_path sheet_title current_time);;
     delete_blob path
   else mret tt);;
  upload_blob path png;;
  tell (Info ("Uploaded image: " +:+ path)).

(** The body of the [try] for one cell. *)
Definition attempt (current_time sheet_title : string) (c : cell) : M unit :=
  png ← image_get sheet_title c;
  publish current_time sheet_title png.

(** The loop over the cells of one row: [break] after a successful
    upload, [continue] after a caught exception. *)
Fixpoint scan_row (current_time sheet_title : string) (row : list cell) : M unit :=
  match row with
  | [] => mret tt
  | c :: rest =>
      if candidate c then
        r ← try_ (attempt current_time sheet_title c);
        match r with
        | Ok _ => mret tt
        | Raise e =>
            tell (Warning ("Image processing failed: " +:+ describe e));;
            scan_row current_time sheet_title rest
        end
      else scan_row current_time sheet_title rest
  end.

Fixpoint scan_rows (current_time sheet_title : string) (rows : list (list cell)) : M unit :=
  match rows with
  | [] => mret tt
  | row :: rows' =>
      scan_row current_time sheet_title row;;
      scan_rows current_time sheet_title rows'
  end.

(** Lines 98 to 123 for one sheet. *)
Definition scan_sheet (current_time : string) (sheet : worksheet) : M unit :=
  SheetImageLoader sheet;;
  scan_rows current_time (title sheet) (iter_rows sheet).

Fixpoint scan_sheets (current_time : string) (sheets : list worksheet) : M unit :=
  match sheets with
  | [] => mret tt
  | sheet :: sheets' =>
      scan_sheet current_time sheet;;
      scan_sheets current_time sheets'
  end.

(** [workbook.worksheets[4:]]. *)
Definition image_sheets (wb : workbook) : list worksheet := List.skipn 4 wb.

Definition process_images (current_time : string) (wb : workbook) : M unit :=
  scan_sheets current_time (image_sheets wb).

(** *** The whole invocation *)

Definition quote : string := String (ascii_of_nat 34) EmptyString.

(** [json.dumps({"msg": "success"})]. *)
Definition success_body : string :=
  "{" +:+ quote +:+ "msg" +:+ quote +:+ ": " +:+ quote +:+ "success" +:+ quote +:+ "}".

(** Lines 85 to 125, entered once the frame is normalised. *)
Definition load_and_publish (current_time : string) (c : content) (df : DataFrame)
    : M response :=
  r ← try_ (to_sql df;; tell (Info "Data successfully uploaded to Azure SQL."));
  match r with
  | Raise e =>
      tell (Error ("Failed to upload data: " +:+ describe e));;
      mret (HttpResponse "Database upload failed." 500)
  | Ok _ =>
      wb ← lift (load_workbook c);
      process_images current_time wb;;
      mret (HttpResponse success_body 200)
  end.

(** The truth value of [blob_data] at line 51: [None] is false, and a
    downloader has the length of its blob, so that of an empty blob is
    false as well. *)
Definition is_empty (c : content) : bool :=
  match c with
  | Bytes EmptyString => true
  | _ => false
  end.

Definition found (blob_data : option content) : bool :=
  match blob_data with
  | Some c => negb (is_empty c)
  | None => false
  end.

Definition handler (container_name current_time : string) (req : request) : M response :=
  tell (Info "Processing request for Excel upload and database update.");;
  let user_email := email req in
  tell (Info ("Request from user: " +:+ fmt user_email));;
  listing ← (λ w, (Ok (list_blobs "DATASET/Current" w), w));
  blob_data ← locate user_email listing;
  match blob_data with
  | Some c =>
      if found blob_data then
        df ← lift (read_excel c "Sheet1");
        df ← lift (normalize container_name current_time user_email df);
        load_and_publish current_time c df
      else
        let msg := "No file found for user " +:+ fmt user_email in
        tell (Warning msg);;
        mret (HttpResponse msg 404)
  | None =>
      let msg := "No file found for user " +:+ fmt user_email in
      tell (Warning msg);;
      mret (HttpResponse msg 404)
  end.

(** [main(req)] run in a world, with the container name of the environment
    and the clock reading of line 62. *)
Definition main (container_name current_time : string) (req : request) (w : world)
    : outcome * world :=
  match handler container_name current_time req w with
  | (Ok r, w') => (Returned r, w')
  | (Raise e, w') => (Unhandled e, w')
  end.

End Pipeline.

Import Pipeline.

(** ** Reading the log *)

Module Observe.

(** What one invocation added to the log. *)
Definition new_log (w w' : world) : list event := skipn (length (log w)) (log w').

(** The effect on the container that a logged event stands for. *)
Definition apply_event (m : gmap string content) (e : event) : gmap string content :=
  match e with
  | StartCopy source dest true =>
      match m !! source with
      | Some c => <[dest := c]> m
      | None => m
      end
  | DeleteBlob path true => delete path m
  | UploadBlob path data true => <[path := Bytes data]> m
  | _ => m
  end.

Definition replay (evs : list event) (m : gmap string content) : gmap string content :=
  fold_left apply_event evs m.

(** The rows that the logged appends wrote. *)
Definition appended (evs : list event) : list record :=
  concat (map (λ e, match e with ToSql rows true => rows | _ => [] end) evs).

(** Events of the image loop. *)
Definition image_event (e : event) : bool :=
  match e with
  | ImageGet _ _ _ | Exists _ _ | StartCopy _ _ _ | DeleteBlob _ _ | UploadBlob _ _ _ => true
  | _ => false
  end.

(** Events that the scan of the sheet titled [sheet_title] can log. *)
Definition sheet_event (current_time sheet_title : string) (e : event) : bool :=
  match e with
  | Info _ | Warning _ => true
  | Error _ | ToSql _ _ => false
  | ImageGet sheet coord _ =>
      bool_decide (sheet = sheet_title) && negb (bool_decide (coord ∈ excluded_cells))
  | Exists path _ | DeleteBlob path _ | UploadBlob path _ _ =>
      bool_decide (path = file_path sheet_title)
  | StartCopy source dest _ =>
      bool_decide (source = file_path sheet_title)
      && bool_decide (dest = archive_path sheet_title current_time)
  end.

(** A picture was read and re-encoded. *)
Definition extracted (e : event) : bool :=
  match e with
  | ImageGet _ _ true => true
  | _ => false
  end.

(** A picture reached its target path. *)
Definition uploaded (e : event) : bool :=
  match e with
  | UploadBlob _ _ true => true
  | _ => false
  end.

(** A blob operation raised. *)
Definition storage_failure (e : event) : bool :=
  match e with
  | Exists _ None | StartCopy _ _ false | DeleteBlob _ false | UploadBlob _ _ false => true
  | _ => false
  end.

(** A step of the image loop raised: a picture could not be read, or a
    blob operation failed. *)
Definition image_failure (e : event) : bool :=
  match e with
  | ImageGet _ _ false => true
  | _ => storage_failure e
  end.

Definition warning (e : event) : bool :=
  match e with
  | Warning _ => true
  | _ => false
  end.

Definition count (f : event → bool) (evs : list event) : nat :=
  length (List.filter f evs).

(** The first blob that line 46 accepts. *)
Definition first_match (user_email : option string) (listing : list (string * content))
    : option (string * content) :=
  List.find (λ b, matches user_email b.1) listing.


(** The runs of lines 108 to 119 for one picture: what is returned and
    what is logged, given what the target path held before. *)
Inductive publish_log (path archive png : string) :
    option content → result unit → list event → Prop :=
| exists_raises old :
    publish_log path archive png old (Raise (ServiceError "exists"))
      [Exists path None]
| fresh_upload_raises :
    publish_log path archive png None (Raise (ServiceError "upload_blob"))
      [Exists path (Some false); UploadBlob path png false]
| fresh_upload :
    publish_log path archive png None (Ok tt)
      [Exists path (Some false); UploadBlob path png true;
       Info ("Uploaded image: " +:+ path)]
| copy_raises old :
    publish_log path archive png (Some old) (Raise (ServiceError "start_copy_from_url"))
      [Exists path (Some true); StartCopy path archive false]
| delete_raises old :
    publish_log path archive png (Some old) (Raise (ServiceError "delete_blob"))
      [Exists path (Some true); StartCopy path archive true; DeleteBlob path false]
| upload_raises old :
    publish_log path archive png (Some old) (Raise (ServiceError "upload_blob"))
      [Exists path (Some true); StartCopy path archive true; DeleteBlob path true;
       UploadBlob path png false]
| archived_and_replaced old :
    publish_log path archive png (Some old) (Ok tt)
      [Exists path (Some true); StartCopy path archive true; DeleteBlob path true;
       UploadBlob path png true; Info ("Uploaded image: " +:+ path)].

(** The loader of the sheet can be built: no picture of its drawing is
    anchored right of column [Z]. *)
Definition loads (sheet : worksheet) : bool :=
  forallb (λ a, bool_decide (anchor_col a < 26)%nat) (images sheet).

(** The runs of [main]: the outcome and the final world of an invocation
    started in [w], by the path taken through lines 44 to 125. *)
Inductive main_run (container_name current_time : string) (req : request) (w : world) :
    outcome → world → Prop :=
| run_not_found w' :
    first_match (email req) (list_blobs "DATASET/Current" w) = None →
    new_log w w'
    = [Info "Processing request for Excel upload and database update.";
       Info ("Request from user: " +:+ fmt (email req));
       Warning ("No file found for user " +:+ fmt (email req))] →
    blobs w' = blobs w → table_DATASET w' = table_DATASET w → faults w' = faults w →
    main_run container_name current_time req w
      (Returned (HttpResponse ("No file found for user " +:+ fmt (email req)) 404)) w'
| run_empty_blob name w' :
    first_match (email req) (list_blobs "DATASET/Current" w) = Some (name, Bytes "") →
    new_log w w'
    = [Info "Processing request for Excel upload and database update.";
       Info ("Request from user: " +:+ fmt (email req));
       Info ("Found Excel file: " +:+ name);
       Warning ("No file found for user " +:+ fmt (email req))] →
    blobs w' = blobs w → table_DATASET w' = table_DATASET w → faults w' = faults w →
    main_run container_name current_time req w
      (Returned (HttpResponse ("No file found for user " +:+ fmt (email req)) 404)) w'
| run_unhandled name c e w' :
    first_match (email req) (list_blobs "DATASET/Current" w) = Some (name, c) →
    match read_excel c "Sheet1" with
    | Ok df => normalize container_name current_time (email req) df
    | Raise e => Raise e
    end = Raise e →
    new_log w w'
    = [Info "Processing request for Excel upload and database update.";
       Info ("Request from user: " +:+ fmt (email req));
       Info ("Found Excel file: " +:+ name)] →
    blobs w' = blobs w → table_DATASET w' = table_DATASET w → faults w' = faults w →
    main_run container_name current_time req w (Unhandled e) w'
| run_load_failed name c df0 df w' :
    first_match (email req) (list_blobs "DATASET/Current" w) = Some (name, c) →
    read_excel c "Sheet1" = Ok df0 →
    normalize container_name current_time (email req) df0 = Ok df →
    new_log w w'
    = [Info "Processing request for Excel upload and database update.";
       Info ("Request from user: " +:+ fmt (email req));
       Info ("Found Excel file: " +:+ name);
       ToSql (records df) false;
       Error ("Failed to upload data: " +:+ describe (ServiceError "to_sql"))] →
    blobs w' = blobs w → table_DATASET w' = table_DATASET w →
    main_run container_name current_time req w
      (Returned (HttpResponse "Database upload failed." 500)) w'
| run_success name wb df0 df evs w' :
    first_match (email req) (list_blobs "DATASET/Current" w) = Some (name, Xlsx wb) →
    read_excel (Xlsx wb) "Sheet1" = Ok df0 →
    normalize container_name current_time (email req) df0 = Ok df →
    new_log w w'
    = [Info "Processing request for Excel upload and database update.";
       Info ("Request from user: " +:+ fmt (email req));
       Info ("Found Excel file: " +:+ name);
       ToSql (records df) true;
       Info "Data successfully uploaded to Azure SQL."] ++ evs →
    Forall (λ e, ∃ sheet, sheet ∈ image_sheets wb
                        ∧ sheet_event current_time (title sheet) e = true) evs →
    blobs w' = replay evs (blobs w) →
    table_DATASET w' = table_DATASET w ++ records df →
    Forall (λ sheet, loads sheet = true) (image_sheets wb) →
    main_run container_name current_time req w
      (Returned (HttpResponse success_body 200)) w'
| run_loader_failed name wb df0 df before sheet after evs w' :
    first_match (email req) (list_blobs "DATASET/Current" w) = Some (name, Xlsx wb) →
    read_excel (Xlsx wb) "Sheet1" = Ok df0 →
    normalize container_name current_time (email req) df0 = Ok df →
    new_log w w'
    = [Info "Processing request for Excel upload and database update.";
       Info ("Request from user: " +:+ fmt (email req));
       Info ("Found Excel file: " +:+ name);
       ToSql (records df) true;
       Info "Data successfully uploaded to Azure SQL."] ++ evs →
    Forall (λ e, ∃ s, s ∈ before ∧ sheet_event current_time (title s) e = true) evs →
    blobs w' = replay evs (blobs w) →
    table_DATASET w' = table_DATASET w ++ records df →
    image_sheets wb = before ++ sheet :: after →
    Forall (λ s, loads s = true) before → loads sheet = false →
    main_run container_name current_time req w
      (Unhandled (IndexError "string index out of range")) w'.

(** [m] only adds events satisfying [Q] to the log, and the log accounts
    for every change of the container and of the table. *)
Definition logged {A} (Q : event → Prop) (m : M A) : Prop :=
  ∀ w r w', m w = (r, w') →
    ∃ evs, log w' = log w ++ evs
         ∧ Forall Q evs
         ∧ blobs w' = replay evs (blobs w)
         ∧ table_DATASET w' = table_DATASET w ++ appended evs.

End Observe.

Import Observe.

(** ** Scenarios *)

Module Scenario.

Definition clock : string := "2024-05-01 09:30:00".

(** [Sheet1] of the sample workbook: the identifier column still carries
    its old name, and two cells show the corruption. *)
Definition orders : DataFrame :=
  {| nrows := 2;
     columns := [("OldName", [VStr "QÐ¢"; VInt 7]);
                 ("Unused_Column", [VNaN; VNaN]);
                 ("Owner", [VStr "Ðšarim"; VStr "Lola"])] |}.

(** A [Sheet1] that has no identifier column under either name. *)
Definition no_identifier : DataFrame :=
  {| nrows := 1; columns := [("Owner", [VStr "Lola"])] |}.

Definition plain_sheet (name : string) (df : DataFrame) : worksheet :=
  {| title := name; frame := df; images := []; iter_rows := [] |}.

Definition picture_sheet (name : string) (pictures : list anchor) (rows : list (list cell))
    : worksheet :=
  {| title := name; frame := {| nrows := 0; columns := [] |};
     images := pictures; iter_rows := rows |}.

Definition picture_at (row col : nat) : anchor :=
  {| anchor_row := row; anchor_col := col |}.

Definition empty_cell (coord : string) : cell :=
  {| coordinate := coord; embedded := None |}.

Definition picture_cell (coord png : string) : cell :=
  {| coordinate := coord; embedded := Some (Decodable png) |}.

(** Sheet [Q3]: a logo in the excluded cell [A1] and two pictures in row 1,
    one picture in row 2. *)
Definition q3 : worksheet :=
  picture_sheet "Q3"
    [picture_at 0 0; picture_at 0 1; picture_at 0 2; picture_at 1 1]
    [[picture_cell "A1" "logo"; picture_cell "B1" "first"; picture_cell "C1" "second"];
     [empty_cell "A2"; picture_cell "B2" "third"]].

Definition leading (df : DataFrame) : list worksheet :=
  [plain_sheet "Sheet1" df; plain_sheet "Notes" {| nrows := 0; columns := [] |};
   plain_sheet "Lists" {| nrows := 0; columns := [] |};
   picture_sheet "Cover" [picture_at 1 1] [[picture_cell "B2" "cover"]]].

Definition book : workbook := leading orders ++ [q3].



Definition book_without_identifier : workbook := leading no_identifier ++ [q3].

Definition container_with (wb : workbook) (extra : list (string * content))
    : gmap string content :=
  <["DATASET/Current_alice@example.com.xlsx" := Xlsx wb]> (list_to_map extra).

Definition start (wb : workbook) (extra : list (string * content)) (plan : list bool)
    : world :=
  {| blobs := container_with wb extra; table_DATASET := []; faults := plan; log := [] |}.

Definition alice : request := {| email := Some "alice@example.com" |}.
Definition bob : request := {| email := Some "bob@example.com" |}.

End Scenario.

(** ** Shapes of names and frames *)

Module Shape.

(** [s.endswith(suffix)]. *)
Definition endswith (suffix s : string) : bool :=
  bool_decide (String.length suffix ≤ String.length s)%nat
  && bool_decide (skip (String.length s - String.length suffix) s = suffix).

(** How many columns of the frame carry the label. *)
Definition label_count (name : string) (df : DataFrame) : nat :=
  length (List.filter (labelled name) (columns df)).

(** The logged event changed what the container holds under [name]. *)
Definition writes (name : string) (e : event) : bool :=
  match e with
  | StartCopy _ dest true => bool_decide (dest = name)
  | DeleteBlob path true | UploadBlob path _ true => bool_decide (path = name)
  | _ => false
  end.

(** The labels that lines 69 to 76 write. *)
Definition injected_labels : list string :=
  ["Create_date"; "Last_modified"; "Created_by"; "Image_link"].

(** The picture that the loader holds for the leftmost cell of the row
    that passes line 101 and whose picture can be read. *)
Fixpoint first_readable (row : list cell) : option string :=
  match row with
  | [] => None
  | c :: rest =>
      if candidate c then
        match embedded c with
        | Some (Decodable png) => Some png
        | _ => first_readable rest
        end
      else first_readable rest
  end.

(** What the container holds once [png] is published for the sheet. *)
Definition published (current_time sheet_title png : string) (m : gmap string content)
    : gmap string content :=
  <[file_path sheet_title := Bytes png]>
    match m !! file_path sheet_title with
    | Some old => <[archive_path sheet_title current_time := old]> m
    | None => m
    end.

End Shape.

Import Shape.

(** * Properties *)

(** ** Facts about text and [re_sub] *)

#[local] Arguments String.append : simpl nomatch.

Section TextFacts.

Implicit Types (s a b p q pat repl : string) (c d h t : ascii).

Lemma string_app_assoc a b s : (a +:+ b) +:+ s = a +:+ (b +:+ s).
Proof. induction a as [|c a IH]; simpl; [done | by rewrite IH]. Qed.

Lemma string_length_app a b : String.length (a +:+ b) = String.length a + String.length b.
Proof. induction a as [|c a IH]; simpl; [done | by rewrite IH]. Qed.

Lemma startswith_refl_app p s : startswith p (p +:+ s) = true.
Proof. induction p as [|c p IH]; simpl; [done | by rewrite decide_True]. Qed.

Lemma startswith_split p s : startswith p s = true → s = p +:+ skip (String.length p) s.
Proof.
  revert s; induction p as [|c p IH]; intros [|d s]; simpl; try done.
  case_decide; [subst | done]. intros H. by rewrite <- IH.
Qed.

Lemma skip_app p s : skip (String.length p) (p +:+ s) = s.
Proof. induction p as [|c p IH]; simpl; [by destruct s | done]. Qed.


Lemma contains_cons needle c s :
  contains needle (String c s) = startswith needle (String c s) || contains needle s.
Proof. done. Qed.

Lemma contains_skip needle n s : contains needle (skip n s) = true → contains needle s = true.
Proof.
  revert s; induction n as [|n IH]; intros s; [done |].
  destruct s as [|c s]; [done |]. intros H%IH.
  rewrite contains_cons, H. apply orb_true_r.
Qed.


(** *** Unfolding [re_sub] along the text *)

Lemma sub_from_skip k h p repl s :
  sub_from k (String h p) repl s = re_sub (String h p) repl (skip k s).
Proof.
  revert k; induction s as [|c s IH]; intros [|k]; try done.
  simpl skip. rewrite <- IH. done.
Qed.

Lemma re_sub_match h p repl s :
  startswith (String h p) s = true →
  re_sub (String h p) repl s
  = repl +:+ re_sub (String h p) repl (skip (String.length (String h p)) s).
Proof.
  destruct s as [|c s]; [done |]. intros H.
  unfold re_sub at 1. cbn [sub_from]. rewrite H. cbn [String.length].
  by rewrite sub_from_skip.
Qed.

Lemma re_sub_step h p repl c s :
  startswith (String h p) (String c s) = false →
  re_sub (String h p) repl (String c s) = String c (re_sub (String h p) repl s).
Proof. intros H. unfold re_sub. cbn [sub_from]. by rewrite H. Qed.

(** Induction on the length of the text, the shape [re_sub] recurses in. *)
Lemma re_sub_ind h p (P : string → Prop) :
  P "" →
  (∀ s, P s → P (String h p +:+ s)) →
  (∀ c s, startswith (String h p) (String c s) = false → P s → P (String c s)) →
  ∀ s, P s.
Proof.
  intros Hnil Hmatch Hstep s.
  remember (String.length s) as n eqn:Hn.
  revert s Hn; induction (lt_wf n) as [n _ IH]; intros s ->.
  destruct s as [|c s]; [done |].
  destruct (startswith (String h p) (String c s)) eqn:Hm.
  - rewrite (startswith_split _ _ Hm). apply Hmatch.
    eapply IH; [|done].
    rewrite (startswith_split _ _ Hm) at 2. rewrite string_length_app. simpl. lia.
  - apply Hstep; [done |]. eapply IH; [|done]. simpl. lia.
Qed.

Lemma re_sub_app_match h p repl s :
  re_sub (String h p) repl (String h p +:+ s) = repl +:+ re_sub (String h p) repl s.
Proof. rewrite re_sub_match by apply startswith_refl_app. by rewrite skip_app. Qed.

(** Text without the pattern is returned as it is. *)
Lemma re_sub_absent h p repl s :
  contains (String h p) s = false → re_sub (String h p) repl s = s.
Proof.
  induction s as [|c s IH]; [done |].
  rewrite contains_cons. intros [Hm Hs]%orb_false_elim.
  rewrite re_sub_step by done. by rewrite IH.
Qed.

(** What starts the result and avoids the replacement character started
    the text. *)
Lemma startswith_re_sub h p t q s :
  occurs t q = false →
  startswith q (re_sub (String h p) (String t "") s) = true → startswith q s = true.
Proof.
  revert s; induction q as [|a q IH]; intros s Ht; [done |].
  simpl in Ht. case_decide; [done |].
  destruct s as [|c s]; [done |].
  destruct (startswith (String h p) (String c s)) eqn:Hm.
  - rewrite re_sub_match by done. simpl. case_decide; [congruence | done].
  - rewrite re_sub_step by done. simpl. case_decide; [eauto | done].
Qed.

(** Replacing by a character foreign to [q] creates no occurrence of [q]. *)
Lemma contains_re_sub h p t (a : ascii) q s :
  occurs t (String a q) = false →
  contains (String a q) (re_sub (String h p) (String t "") s) = true →
  contains (String a q) s = true.
Proof.
  intros Ht. induction s as [| s IH | c s Hm IH] using (re_sub_ind h p).
  - done.
  - rewrite re_sub_app_match. simpl String.append. rewrite contains_cons.
    intros [H|H]%orb_true_iff.
    + simpl in H, Ht. repeat case_decide; congruence || done.
    + apply (contains_skip _ (S (String.length p))). simpl skip. rewrite skip_app. auto.
  - rewrite re_sub_step by done. rewrite !contains_cons.
    intros [H|H]%orb_true_iff; apply orb_true_iff; [left | right; auto].
    rewrite <- (re_sub_step _ _ (String t "")) in H by done.
    by apply startswith_re_sub in H.
Qed.

(** No occurrence of the pattern is left when the replacement is a
    character foreign to it. *)
Lemma contains_re_sub_self h p t s :
  occurs t (String h p) = false →
  contains (String h p) (re_sub (String h p) (String t "") s) = false.
Proof.
  intros Ht. induction s as [| s IH | c s Hm IH] using (re_sub_ind h p).
  - done.
  - rewrite re_sub_app_match. simpl String.append. rewrite contains_cons, IH.
    simpl in *. case_decide; [done |]. by rewrite decide_False by congruence.
  - rewrite re_sub_step by done. rewrite contains_cons, IH, orb_false_r.
    destruct (startswith _ (String c (re_sub _ _ s))) eqn:E; [|done].
    rewrite <- (re_sub_step _ _ (String t "")) in E by done.
    apply startswith_re_sub in E; [congruence | done].
Qed.



End TextFacts.

(** ** The encoding repair of line 79 *)

Section EncodingRepair.

Implicit Types (s a b : string) (c : ascii).

Lemma fix_encoding_unfold s :
  fix_encoding s = re_sub "Ðš" "K" (re_sub "Ð¢" "T" s).
Proof. done. Qed.




(** Text that holds neither corrupted substring passes through unchanged. *)
Lemma fix_encoding_absent s :
  contains "Ð¢" s = false → contains "Ðš" s = false → fix_encoding s = s.
Proof.
  intros H1 H2. rewrite fix_encoding_unfold.
  by rewrite (re_sub_absent _ _ _ s H1), (re_sub_absent _ _ _ s H2).
Qed.

(** No corrupted substring is left in repaired text. *)
Lemma fix_encoding_clean s :
  contains "Ð¢" (fix_encoding s) = false ∧ contains "Ðš" (fix_encoding s) = false.
Proof.
  rewrite fix_encoding_unfold. split; [|by apply contains_re_sub_self].
  destruct (contains "Ð¢" (re_sub "Ðš" "K" _)) eqn:E; [|done].
  apply contains_re_sub in E; [|done].
  by rewrite contains_re_sub_self in E.
Qed.





End EncodingRepair.

#[local] Arguments String.append : simpl never.

(** ** Frames *)

Section FrameFacts.

Implicit Types (df : DataFrame) (name : string) (col : string * list value).

Lemma well_formed_drop names df : well_formed df → well_formed (drop names df).
Proof.
  unfold well_formed, drop; simpl. rewrite !Forall_forall.
  intros H col Hin. apply H. apply list_elem_of_In, filter_In in Hin as [Hin _].
  by apply list_elem_of_In.
Qed.

Lemma well_formed_rename old new df : well_formed df → well_formed (rename old new df).
Proof.
  unfold well_formed, rename; simpl. rewrite Forall_map.
  intros H. eapply Forall_impl; [exact H |]. by intros [n vs].
Qed.

Lemma well_formed_setitem name vs df :
  length vs = nrows df → well_formed df → well_formed (setitem name vs df).
Proof.
  unfold well_formed, setitem; simpl. intros Hlen H. case_bool_decide.
  - rewrite Forall_map. eapply Forall_impl; [done |].
    intros col Hcol; simpl. by case_decide.
  - apply Forall_app; split; [done |]. by constructor.
Qed.

Lemma well_formed_setitem_scalar name v df :
  well_formed df → well_formed (setitem_scalar name v df).
Proof. apply well_formed_setitem, length_replicate. Qed.

Lemma well_formed_add_metadata current_time user_email df :
  well_formed df → well_formed (add_metadata current_time user_email df).
Proof.
  intros H. unfold add_metadata.
  by do 3 apply well_formed_setitem_scalar; apply well_formed_rename, well_formed_drop.
Qed.



Lemma find_labelled_elem name cols col :
  List.find (labelled name) cols = Some col → col ∈ cols ∧ col.1 = name.
Proof.
  intros [Hin Hl]%find_some. split; [by apply list_elem_of_In |].
  by apply bool_decide_eq_true in Hl.
Qed.


(** The column read by [df[name]] is the one [field] sees in every record. *)
Lemma getitem_Ok name df ids :
  getitem name df = Ok ids → List.find (labelled name) (columns df) = Some (name, ids).
Proof.
  unfold getitem.
  induction (columns df) as [|[n vs] cols IH]; [done |]. simpl.
  destruct (labelled name (n, vs)) eqn:E; [|done].
  apply bool_decide_eq_true in E; simpl in E; subst n.
  destruct (List.filter (labelled name) cols); [|done]. by intros [= ->].
Qed.

Lemma getitem_missing name df : name ∉ labels df → getitem name df = Raise (KeyError name).
Proof.
  unfold getitem, labels.
  induction (columns df) as [|[n vs] cols IH]; [done |]. simpl.
  rewrite not_elem_of_cons. intros [Hn Hrest].
  unfold labelled at 1; simpl. rewrite bool_decide_false by done. auto.
Qed.



Lemma labels_drop names df name : name ∈ labels (drop names df) → name ∈ labels df.
Proof.
  unfold labels, drop; simpl. rewrite !list_elem_of_fmap.
  intros (col & -> & Hin). exists col. split; [done |].
  by apply list_elem_of_In, filter_In in Hin as [?%list_elem_of_In _].
Qed.

Lemma labels_rename_absent old new df name :
  name ≠ old → old ∉ labels df → name ∉ labels df → name ∉ labels (rename old new df).
Proof.
  unfold labels, rename; simpl. intros Hne Hold Hname.
  rewrite list_elem_of_fmap. intros ([n vs] & Heq & Hin). simpl in Heq.
  apply list_elem_of_fmap in Hin as ([n' vs'] & [= -> ->] & Hin). simpl in Heq.
  case_decide; subst.
  - apply Hold. apply list_elem_of_fmap. by exists (old, vs').
  - apply Hname. apply list_elem_of_fmap. by exists (n', vs').
Qed.

Lemma labels_setitem_other name other vs df :
  other ∉ labels df → other ≠ name → other ∉ labels (setitem name vs df).
Proof.
  unfold setitem. intros Hother Hne. unfold labels at 1; simpl. case_bool_decide as Hin.
  - rewrite list_elem_of_fmap. intros ([n ws] & Heq & Hcol). simpl in Heq; subst n.
    apply list_elem_of_fmap in Hcol as ([n' ws'] & Heq & Hcol).
    case_decide; simplify_eq/=. apply Hother, list_elem_of_fmap. by eexists (_, _).
  - rewrite fmap_app, elem_of_app. simpl. rewrite list_elem_of_singleton. by intros [|].
Qed.

End FrameFacts.

(** ** Computations and the log *)

Section Logged.

Context {Q : event → Prop}.

Lemma new_log_app w w' evs : log w' = log w ++ evs → new_log w w' = evs.
Proof. unfold new_log. intros ->. apply drop_app_length. Qed.

Lemma logged_ret {A} (a : A) : logged Q (mret a).
Proof.
  intros w r w' [= <- <-]. exists []. by rewrite !app_nil_r.
Qed.

Lemma logged_raise {A} e : logged Q (raise (A:=A) e).
Proof.
  intros w r w' [= <- <-]. exists []. by rewrite !app_nil_r.
Qed.

Lemma logged_tell e :
  Q e → (∀ m, apply_event m e = m) → (∀ rows, e ≠ ToSql rows true) → logged Q (tell e).
Proof.
  intros HQ Hi Hs w r w' [= <- <-]. exists [e]. simpl.
  split_and!; [done | by constructor | |].
  - by rewrite Hi.
  - unfold appended; simpl. destruct e as [| | |rows []| | | | |]; simpl;
      rewrite ?app_nil_r; try done. by destruct (Hs rows).
Qed.

Lemma logged_bind {A B} (m : M A) (f : A → M B) :
  logged Q m → (∀ a, logged Q (f a)) → logged Q (m ≫= f).
Proof.
  intros Hm Hf w r w'. unfold mbind, M_bind.
  destruct (m w) as [[a|e] w1] eqn:E1.
  - intros E2. destruct (Hm _ _ _ E1) as (evs1 & Hl1 & HQ1 & Hb1 & Ht1).
    destruct (Hf _ _ _ _ E2) as (evs2 & Hl2 & HQ2 & Hb2 & Ht2).
    exists (evs1 ++ evs2). split_and!.
    + by rewrite Hl2, Hl1, app_assoc.
    + by apply Forall_app.
    + unfold replay in *. by rewrite fold_left_app, <- Hb1.
    + unfold appended in *. by rewrite map_app, concat_app, Ht2, Ht1, app_assoc.
  - intros [= <- <-]. by apply Hm in E1.
Qed.

Lemma logged_try {A} (m : M A) : logged Q m → logged Q (try_ m).
Proof.
  intros Hm w r w'. unfold try_. destruct (m w) as [r1 w1] eqn:E1.
  intros [= <- <-]. by apply Hm in E1.
Qed.

Lemma logged_exists path :
  (∀ answer, Q (Exists path answer)) → logged Q (blob_exists path).
Proof.
  intros HQ w r w'. unfold blob_exists, next_call.
  destruct (match faults w with b :: _ => b | [] => false end);
    intros [= <- <-]; eexists [_]; simpl; (split_and!; [done | by constructor | done | by rewrite app_nil_r]).
Qed.

Lemma logged_copy source dest :
  (∀ ok, Q (StartCopy source dest ok)) → logged Q (start_copy_from_url source dest).
Proof.
  intros HQ w r w'. unfold start_copy_from_url, next_call.
  destruct (match faults w with b :: _ => b | [] => false end); simpl;
    [|destruct (blobs w !! source) eqn:E];
    intros [= <- <-]; eexists [_]; simpl;
    (split_and!; [done | by constructor | by unfold apply_event; rewrite ?E | by rewrite app_nil_r]).
Qed.

Lemma logged_delete path :
  (∀ ok, Q (DeleteBlob path ok)) → logged Q (delete_blob path).
Proof.
  intros HQ w r w'. unfold delete_blob, next_call.
  destruct (match faults w with b :: _ => b | [] => false end); simpl;
    [|destruct (blobs w !! path) eqn:E];
    intros [= <- <-]; eexists [_]; simpl;
    (split_and!; [done | by constructor | done | by rewrite app_nil_r]).
Qed.

Lemma logged_upload path data :
  (∀ ok, Q (UploadBlob path data ok)) → logged Q (upload_blob path data).
Proof.
  intros HQ w r w'. unfold upload_blob, next_call.
  destruct (match faults w with b :: _ => b | [] => false end);
    intros [= <- <-]; eexists [_]; simpl;
    (split_and!; [done | by constructor | done | by rewrite app_nil_r]).
Qed.

End Logged.

(** ** One picture: lines 103 to 119 *)

Section Publish.

Implicit Types (w : world) (t now png : string).

Lemma next_call_inv w b w1 :
  next_call w = (b, w1) →
  blobs w1 = blobs w ∧ log w1 = log w ∧ table_DATASET w1 = table_DATASET w.
Proof. by intros [= <- <-]. Qed.

Lemma exists_inv path w r w1 :
  blob_exists path w = (r, w1) →
  blobs w1 = blobs w
  ∧ ((r = Raise (ServiceError "exists") ∧ log w1 = log w ++ [Exists path None])
     ∨ (r = Ok (bool_decide (is_Some (blobs w !! path)))
        ∧ log w1 = log w ++ [Exists path (Some (bool_decide (is_Some (blobs w !! path))))])).
Proof.
  unfold blob_exists. destruct (next_call w) as [[] w0] eqn:E;
    apply next_call_inv in E as (Hb & Hl & _); intros [= <- <-]; simpl;
    rewrite ?Hb, Hl; auto.
Qed.

Lemma copy_inv source dest w r w1 :
  start_copy_from_url source dest w = (r, w1) →
  (r = Raise (ServiceError "start_copy_from_url")
   ∧ blobs w1 = blobs w ∧ log w1 = log w ++ [StartCopy source dest false])
  ∨ (∃ c, r = Ok tt ∧ blobs w !! source = Some c
        ∧ blobs w1 = <[dest := c]> (blobs w)
        ∧ log w1 = log w ++ [StartCopy source dest true]).
Proof.
  unfold start_copy_from_url. destruct (next_call w) as [[] w0] eqn:E;
    apply next_call_inv in E as (Hb & Hl & _); rewrite ?Hb;
    [|destruct (blobs w !! source) as [c|] eqn:Es]; intros [= <- <-]; simpl;
    rewrite ?Hb, Hl; eauto 10.
Qed.

Lemma delete_inv path w r w1 :
  delete_blob path w = (r, w1) →
  (r = Raise (ServiceError "delete_blob")
   ∧ blobs w1 = blobs w ∧ log w1 = log w ++ [DeleteBlob path false])
  ∨ (r = Ok tt ∧ blobs w1 = delete path (blobs w)
     ∧ log w1 = log w ++ [DeleteBlob path true]).
Proof.
  unfold delete_blob. destruct (next_call w) as [[] w0] eqn:E;
    apply next_call_inv in E as (Hb & Hl & _); rewrite ?Hb;
    [|destruct (blobs w !! path) as [c|] eqn:Es]; intros [= <- <-]; simpl;
    rewrite ?Hb, Hl; eauto 10.
Qed.

Lemma upload_inv path data w r w1 :
  upload_blob path data w = (r, w1) →
  (r = Raise (ServiceError "upload_blob")
   ∧ blobs w1 = blobs w ∧ log w1 = log w ++ [UploadBlob path data false])
  ∨ (r = Ok tt ∧ blobs w1 = <[path := Bytes data]> (blobs w)
     ∧ log w1 = log w ++ [UploadBlob path data true]).
Proof.
  unfold upload_blob. destruct (next_call w) as [[] w0] eqn:E;
    apply next_call_inv in E as (Hb & Hl & _); intros [= <- <-]; simpl;
    rewrite ?Hb, Hl; eauto 10.
Qed.

(** The archive path of a sheet is never its target path. *)
Lemma archive_path_ne t now : archive_path t now ≠ file_path t.
Proof.
  unfold archive_path, file_path. intros H.
  apply (f_equal String.length) in H.
  repeat (rewrite ?string_length_app in H; simpl in H). lia.
Qed.

(** Every run of [publish] is one of the seven of [publish_log]. *)
Lemma publish_run now t png w r w' :
  publish now t png w = (r, w') →
  ∃ evs, log w' = log w ++ evs
       ∧ publish_log (file_path t) (archive_path t now) png
           (blobs w !! file_path t) r evs.
Proof.
  unfold publish, mbind, M_bind.
  destruct (blob_exists _ w) as [[present|e] w1] eqn:E1;
    apply exists_inv in E1 as (Hb1 & [[[=] Hl1] | [[= ->] Hl1]]).
  2: { intros [= <- <-]. subst e. eexists; split; [exact Hl1 | constructor]. }
  destruct (blobs w !! file_path t) as [old|] eqn:Eold.
  - rewrite bool_decide_true in * by done.
    destruct (start_copy_from_url _ _ w1) as [[[]|e] w2] eqn:E2;
      apply copy_inv in E2 as [([=] & Hb2 & Hl2) | (c & [=] & Hc & Hb2 & Hl2)].
    2: { intros [= <- <-]. subst e. rewrite Hl1, <- app_assoc in Hl2.
         eexists; split; [exact Hl2 | constructor]. }
    destruct (delete_blob _ w2) as [[[]|e] w3] eqn:E3;
      apply delete_inv in E3 as [([=] & Hb3 & Hl3) | ([=] & Hb3 & Hl3)].
    2: { intros [= <- <-]. subst e. rewrite Hl2, Hl1, <- !app_assoc in Hl3.
         eexists; split; [exact Hl3 | constructor]. }
    destruct (upload_blob _ _ w3) as [[[]|e] w4] eqn:E4;
      apply upload_inv in E4 as [([=] & Hb4 & Hl4) | ([=] & Hb4 & Hl4)].
    2: { intros [= <- <-]. subst e. rewrite Hl3, Hl2, Hl1, <- !app_assoc in Hl4.
         eexists; split; [exact Hl4 | constructor]. }
    intros [= <- <-]. eexists; split; [|apply archived_and_replaced].
    simpl. rewrite Hl4, Hl3, Hl2, Hl1, <- !app_assoc. done.
  - rewrite bool_decide_false in * by (by intros [? ?]).
    unfold mret, M_ret.
    destruct (upload_blob _ _ w1) as [[[]|e] w4] eqn:E4;
      apply upload_inv in E4 as [([=] & Hb4 & Hl4) | ([=] & Hb4 & Hl4)].
    2: { intros [= <- <-]. subst e. rewrite Hl1, <- !app_assoc in Hl4.
         eexists; split; [exact Hl4 | constructor]. }
    intros [= <- <-]. eexists; split; [|apply fresh_upload].
    simpl. rewrite Hl4, Hl1, <- !app_assoc. done.
Qed.

End Publish.

(** ** The scan of rows and sheets *)

Section Scan.

Implicit Types (w : world) (t now png : string) (c : cell) (row : list cell).

Ltac logged_step :=
  first
    [ apply logged_bind; [|intros ?]
    | apply logged_try
    | apply logged_ret
    | apply logged_raise
    | apply logged_exists; intros ?
    | apply logged_copy; intros ?
    | apply logged_delete; intros ?
    | apply logged_upload; intros ?
    | apply logged_tell; [| done | done] ].

Lemma logged_publish now t png :
  logged (λ e, sheet_event now t e = true) (publish now t png).
Proof.
  unfold publish. apply logged_bind; [|intros present; apply logged_bind].
  - repeat logged_step; simpl; by rewrite ?bool_decide_true.
  - destruct present; repeat logged_step; simpl; by rewrite ?bool_decide_true.
  - intros _. repeat logged_step; simpl; by rewrite ?bool_decide_true.
Qed.

Lemma candidate_coordinate c :
  candidate c = true → negb (bool_decide (coordinate c ∈ excluded_cells)) = true.
Proof. unfold candidate. by intros [_ ?]%andb_true_iff. Qed.

Lemma logged_attempt now t c :
  candidate c = true → logged (λ e, sheet_event now t e = true) (attempt now t c).
Proof.
  intros Hc%candidate_coordinate. unfold attempt. apply logged_bind.
  - unfold image_get. destruct (embedded c) as [[png|]|];
      repeat logged_step; simpl; by rewrite bool_decide_true, Hc.
  - intros png. apply logged_publish.
Qed.

Lemma logged_scan_row now t row :
  logged (λ e, sheet_event now t e = true) (scan_row now t row).
Proof.
  induction row as [|c row IH]; simpl; [apply logged_ret |].
  destruct (candidate c) eqn:Hc; [|done].
  apply logged_bind; [by apply logged_try, logged_attempt |].
  intros [[]|e]; [apply logged_ret |].
  apply logged_bind; [by logged_step | done].
Qed.

Lemma logged_scan_rows now t rows :
  logged (λ e, sheet_event now t e = true) (scan_rows now t rows).
Proof.
  induction rows as [|row rows IH]; simpl; [apply logged_ret |].
  apply logged_bind; [apply logged_scan_row | done].
Qed.

Lemma logged_mono {A} (Q Q' : event → Prop) (m : M A) :
  (∀ e, Q e → Q' e) → logged Q m → logged Q' m.
Proof.
  intros HQ Hm w r w' E. destruct (Hm _ _ _ E) as (evs & ? & H & ? & ?).
  exists evs. split_and!; try done. by eapply Forall_impl.
Qed.

(** *** The loader of a sheet *)

Lemma column_letter_Ok col : (col < 26)%nat → ∃ letter, column_letter col = Ok letter.
Proof.
  intros H. unfold column_letter.
  do 26 (destruct col as [|col]; [simpl; eauto |]). lia.
Qed.

Lemma column_letter_Raise col :
  ¬ (col < 26)%nat → column_letter col = Raise (IndexError "string index out of range").
Proof.
  intros H. unfold column_letter.
  do 26 (destruct col as [|col]; [lia |]). done.
Qed.

Lemma register_loads sheet : loads sheet = true → ∃ keys, register (images sheet) = Ok keys.
Proof.
  unfold loads. induction (images sheet) as [|a rest IH]; simpl; [eauto |].
  intros [Ha%bool_decide_eq_true (keys & ->)%IH]%andb_true_iff.
  destruct (column_letter_Ok _ Ha) as (letter & ->). eauto.
Qed.

Lemma register_fails sheet :
  loads sheet = false →
  register (images sheet) = Raise (IndexError "string index out of range").
Proof.
  unfold loads. induction (images sheet) as [|a rest IH]; simpl; [done |].
  intros [Ha%bool_decide_eq_false | Hrest%IH]%andb_false_iff.
  - by rewrite column_letter_Raise.
  - rewrite Hrest. destruct (decide (anchor_col a < 26)%nat) as [Ha|Ha].
    + by destruct (column_letter_Ok _ Ha) as (letter & ->).
    + by rewrite column_letter_Raise.
Qed.

Lemma scan_sheet_loaded now sheet w :
  loads sheet = true →
  scan_sheet now sheet w = scan_rows now (title sheet) (iter_rows sheet) w.
Proof.
  intros (keys & H)%register_loads. unfold scan_sheet, SheetImageLoader. by rewrite H.
Qed.

Lemma scan_sheet_fails now sheet w :
  loads sheet = false →
  scan_sheet now sheet w = (Raise (IndexError "string index out of range"), w).
Proof.
  intros H%register_fails. unfold scan_sheet, SheetImageLoader. by rewrite H.
Qed.

Lemma logged_scan_sheet now sheet :
  logged (λ e, sheet_event now (title sheet) e = true) (scan_sheet now sheet).
Proof.
  unfold scan_sheet, SheetImageLoader. apply logged_bind.
  - destruct (register (images sheet)); [apply logged_ret | apply logged_raise].
  - intros _. apply logged_scan_rows.
Qed.

Lemma logged_scan_sheets now sheets :
  logged (λ e, ∃ sheet, sheet ∈ sheets ∧ sheet_event now (title sheet) e = true)
    (scan_sheets now sheets).
Proof.
  induction sheets as [|sheet sheets IH]; simpl; [apply logged_ret |].
  apply logged_bind.
  - eapply logged_mono; [|apply logged_scan_sheet].
    intros e He. exists sheet. split; [apply list_elem_of_here | done].
  - intros _. eapply logged_mono; [|apply IH].
    intros e (s & Hs & He). exists s. split; [by apply list_elem_of_further | done].
Qed.

(** *** The loops over cells and rows never raise *)

Lemma scan_row_returns now t row w : (scan_row now t row w).1 = Ok tt.
Proof.
  revert w; induction row as [|c row IH]; intros w; simpl; [done |].
  destruct (candidate c); [|done].
  unfold mbind, M_bind, try_.
  destruct (attempt now t c w) as [[[]|e] w1]; simpl; [done |]. apply IH.
Qed.

Lemma scan_rows_returns now t rows w : (scan_rows now t rows w).1 = Ok tt.
Proof.
  revert w; induction rows as [|row rows IH]; intros w; simpl; [done |].
  unfold mbind, M_bind.
  pose proof (scan_row_returns now t row w) as H.
  destruct (scan_row now t row w) as [[[]|e] w1]; simpl in *; [apply IH | done].
Qed.

(** *** The loop over sheets *)

(** A sheet whose loader is built is scanned, and the next sheets follow. *)
Lemma scan_sheets_cons now sheet sheets w :
  loads sheet = true →
  scan_sheets now (sheet :: sheets) w
  = scan_sheets now sheets (scan_rows now (title sheet) (iter_rows sheet) w).2.
Proof.
  intros H. simpl. unfold mbind, M_bind. rewrite scan_sheet_loaded by done.
  pose proof (scan_rows_returns now (title sheet) (iter_rows sheet) w) as Hr.
  by destruct (scan_rows now _ _ w) as [[[]|e] w1].
Qed.

(** A sheet whose loader cannot be built ends the loop. *)
Lemma scan_sheets_stop now sheet sheets w :
  loads sheet = false →
  scan_sheets now (sheet :: sheets) w
  = (Raise (IndexError "string index out of range"), w).
Proof. intros H. simpl. unfold mbind, M_bind. by rewrite scan_sheet_fails. Qed.

Lemma scan_sheets_returns now sheets w :
  Forall (λ s, loads s = true) sheets → (scan_sheets now sheets w).1 = Ok tt.
Proof.
  intros H. revert w. induction H as [|sheet sheets Hs _ IH]; intros w; [done |].
  rewrite scan_sheets_cons by done. apply IH.
Qed.

(** The loop over sheets runs up to the first sheet whose loader cannot be
    built, and raises there. *)
Lemma scan_sheets_run now sheets w :
  (Forall (λ s, loads s = true) sheets ∧ (scan_sheets now sheets w).1 = Ok tt)
  ∨ ∃ before sheet after,
      sheets = before ++ sheet :: after
      ∧ Forall (λ s, loads s = true) before
      ∧ loads sheet = false
      ∧ scan_sheets now sheets w
        = (Raise (IndexError "string index out of range"), (scan_sheets now before w).2).
Proof.
  revert w. induction sheets as [|sheet sheets IH]; intros w; [by left |].
  destruct (loads sheet) eqn:Hs.
  - rewrite scan_sheets_cons by done.
    destruct (IH (scan_rows now (title sheet) (iter_rows sheet) w).2)
      as [[H E] | (before & s & after & -> & Hb & Hf & E)].
    + left. split; [by constructor | done].
    + right. exists (sheet :: before), s, after. split_and!; try done.
      * by constructor.
      * change ((sheet :: before) ++ s :: after) with (sheet :: before ++ s :: after).
        rewrite E. by rewrite (scan_sheets_cons now sheet before w Hs).
  - right. exists [], sheet, sheets. split_and!; try done.
    by apply scan_sheets_stop.
Qed.



(** *** One cell *)

Lemma attempt_run now t c w r w' :
  attempt now t c w = (r, w') →
  (∃ png evs, embedded c = Some (Decodable png)
     ∧ log w' = log w ++ ImageGet t (coordinate c) true :: evs
     ∧ publish_log (file_path t) (archive_path t now) png (blobs w !! file_path t) r evs)
  ∨ (r = Raise (ImageError (coordinate c))
     ∧ log w' = log w ++ [ImageGet t (coordinate c) false]
     ∧ blobs w' = blobs w
     ∧ ∀ png, embedded c ≠ Some (Decodable png)).
Proof.
  unfold attempt, image_get, mbind, M_bind.
  destruct (embedded c) as [[png|]|] eqn:Ec; simpl.
  - intros (evs & Hl & Hp)%publish_run. left. exists png, evs.
    simpl in Hl. rewrite <- app_assoc in Hl. done.
  - intros [= <- <-]. right. done.
  - intros [= <- <-]. right. done.
Qed.

End Scan.

(** ** The invocation as a whole *)

Section Invocation.

Implicit Types (w : world) (req : request).

Lemma locate_run user_email listing w :
  locate user_email listing w
  = (Ok (snd <$> first_match user_email listing),
     match first_match user_email listing with
     | Some (name, _) => emit (Info ("Found Excel file: " +:+ name)) w
     | None => w
     end).
Proof.
  induction listing as [|[name c] listing IH]; [done |].
  unfold first_match in *; simpl. by destruct (matches user_email name).
Qed.

Lemma load_and_publish_run now c df w :
  load_and_publish now c df w
  = match next_call w with
    | (true, w1) =>
        (Ok (HttpResponse "Database upload failed." 500),
         emit (Error ("Failed to upload data: " +:+ describe (ServiceError "to_sql")))
           (emit (ToSql (records df) false) w1))
    | (false, w1) =>
        let w2 := emit (Info "Data successfully uploaded to Azure SQL.")
                    (emit (ToSql (records df) true) (append_rows (records df) w1)) in
        match load_workbook c with
        | Raise e => (Raise e, w2)
        | Ok wb =>
            match process_images now wb w2 with
            | (Ok _, w3) => (Ok (HttpResponse success_body 200), w3)
            | (Raise e, w3) => (Raise e, w3)
            end
        end
    end.
Proof.
  unfold load_and_publish, mbind, M_bind, try_, to_sql.
  destruct (next_call w) as [[] w1]; [done |]. simpl.
  destruct (load_workbook c) as [wb|e]; simpl; [|done].
  by destruct (process_images _ _ _) as [[[]|e] w3].
Qed.

Lemma main_runs container_name current_time req w out w' :
  main container_name current_time req w = (out, w') →
  main_run container_name current_time req w out w'.
Proof.
  unfold main, handler, mbind, M_bind. simpl. rewrite locate_run.
  change (list_blobs "DATASET/Current" (emit _ (emit _ w)))
    with (list_blobs "DATASET/Current" w).
  destruct (first_match _ _) as [[name c]|] eqn:Ef; simpl.
  2: { intros [= <- <-]. apply run_not_found; try done.
       apply new_log_app. simpl. by rewrite <- !app_assoc. }
  destruct (is_empty c) eqn:Eempty; simpl.
  { destruct c as [wb|[|? ?]]; try done.
    intros [= <- <-]. eapply run_empty_blob; try done.
    apply new_log_app. simpl. by rewrite <- !app_assoc. }
  unfold lift.
  destruct (read_excel c "Sheet1") as [df0|e] eqn:Er.
  2: { intros [= <- <-]. eapply run_unhandled; try done.
       - by rewrite Er.
       - apply new_log_app. simpl. by rewrite <- !app_assoc. }
  destruct (normalize _ _ _ df0) as [df|e] eqn:En.
  2: { intros [= <- <-]. eapply run_unhandled; try done.
       - by rewrite Er.
       - apply new_log_app. simpl. by rewrite <- !app_assoc. }
  rewrite load_and_publish_run.
  destruct (next_call _) as [[] w1] eqn:Enext;
    apply next_call_inv in Enext as (Hb1 & Hl1 & Ht1); simpl in Hb1, Hl1, Ht1.
  { intros [= <- <-]. eapply run_load_failed; try done.
    apply new_log_app. simpl. by rewrite Hl1, <- !app_assoc. }
  destruct c as [wb|data]; [|done]. cbn beta iota zeta delta [load_workbook].
  assert (∀ (sheets : list worksheet) (evs : list event),
            Forall (λ e, ∃ s : worksheet, s ∈ sheets
                         ∧ sheet_event current_time (title s) e = true) evs →
            appended evs = []) as Hnone.
  { intros sheets evs HQ. induction HQ as [|e evs (s & _ & He) _ IH]; [done |].
    unfold appended in *; simpl. rewrite IH. by destruct e as [| | |? []| | | | |]. }
  unfold process_images.
  match goal with |- context [scan_sheets _ _ ?w0] => set (w2 := w0) end.
  destruct (scan_sheets_run current_time (image_sheets wb) w2)
    as [[Hloads Hr] | (before & sheet & after & Hsplit & Hbefore & Hs & Hr)].
  - destruct (scan_sheets current_time (image_sheets wb) w2) as [r3 w3] eqn:E3.
    simpl in Hr. subst r3.
    apply logged_scan_sheets in E3 as (evs & Hl3 & HQ & Hb3 & Ht3).
    simpl in Hl3, Hb3, Ht3. intros [= <- <-].
    eapply (run_success _ _ _ _ _ _ _ _ evs); try done.
    + apply new_log_app. by rewrite Hl3, Hl1, <- !app_assoc.
    + by rewrite Hb3, Hb1.
    + by rewrite Ht3, Ht1, (Hnone _ _ HQ), app_nil_r.
  - rewrite Hr.
    destruct (scan_sheets current_time before w2) as [r3 w3] eqn:E3.
    apply logged_scan_sheets in E3 as (evs & Hl3 & HQ & Hb3 & Ht3).
    simpl in Hl3, Hb3, Ht3. intros [= <- <-].
    eapply (run_loader_failed _ _ _ _ _ _ _ _ before sheet after evs); try done.
    + apply new_log_app. by rewrite Hl3, Hl1, <- !app_assoc.
    + by rewrite Hb3, Hb1.
    + by rewrite Ht3, Ht1, (Hnone _ _ HQ), app_nil_r.
Qed.

End Invocation.

(** ** Locating the workbook *)

Section Locator.

Implicit Types (w : world) (req : request).

Lemma startswith_refl s : startswith s s = true.
Proof. induction s as [|c s IH]; simpl; [done | by rewrite decide_True]. Qed.

Lemma contains_app_r p s : contains s (p +:+ s) = true.
Proof.
  induction p as [|c p IH].
  - change ("" +:+ s) with s. destruct s; simpl; [done |].
    by rewrite decide_True, startswith_refl.
  - change (String c p +:+ s) with (String c (p +:+ s)).
    rewrite contains_cons, IH. apply orb_true_r.
Qed.

Lemma matches_falsy user_email name : truthy user_email = false → matches user_email name = false.
Proof. unfold matches. by intros ->. Qed.

Lemma first_match_None user_email w :
  (∀ name c, blobs w !! name = Some c → startswith "DATASET/Current" name = true →
             matches user_email name = false) →
  first_match user_email (list_blobs "DATASET/Current" w) = None.
Proof.
  intros H. unfold first_match.
  destruct (List.find _ _) as [[name c]|] eqn:E; [|done].
  apply find_some in E as [[Hin Hp]%filter_In Hm]. simpl in *.
  apply list_elem_of_In, elem_of_map_to_list in Hin.
  by rewrite (H _ _ Hin Hp) in Hm.
Qed.

End Locator.

(** ** Image links *)

Section ImageLink.

Implicit Types (df : DataFrame) (r : record).





End ImageLink.

(** ** Archive, delete, upload *)

Section Archive.

Implicit Types (w : world) (t now png : string).

Lemma publish_Ok now t png w w' :
  publish now t png w = (Ok tt, w') →
  match blobs w !! file_path t with
  | Some old =>
      new_log w w'
      = [Exists (file_path t) (Some true);
         StartCopy (file_path t) (archive_path t now) true;
         DeleteBlob (file_path t) true;
         UploadBlob (file_path t) png true;
         Info ("Uploaded image: " +:+ file_path t)]
      ∧ blobs w' = <[file_path t := Bytes png]> (<[archive_path t now := old]> (blobs w))
  | None =>
      new_log w w'
      = [Exists (file_path t) (Some false);
         UploadBlob (file_path t) png true;
         Info ("Uploaded image: " +:+ file_path t)]
      ∧ blobs w' = <[file_path t := Bytes png]> (blobs w)
  end.
Proof.
  intros E. destruct (publish_run _ _ _ _ _ _ E) as (evs & Hl & Hp).
  destruct (logged_publish now t png _ _ _ E) as (evs' & Hl' & _ & Hb & _).
  rewrite Hl in Hl'. apply app_inv_head in Hl' as <-.
  rewrite (new_log_app _ _ _ Hl).
  inversion Hp as [| | Hold | | | | old Hold]; subst evs.
  - split; [done |]. rewrite Hb. done.
  - split; [done |]. rewrite Hb. unfold replay; simpl. rewrite <- Hold.
    by rewrite insert_delete_eq.
Qed.

(** What a publish that goes through leaves in the container. *)
Lemma publish_replaces now t png w w' :
  publish now t png w = (Ok tt, w') →
  match blobs w !! file_path t with
  | Some old =>
      new_log w w'
      = [Exists (file_path t) (Some true);
         StartCopy (file_path t) (archive_path t now) true;
         DeleteBlob (file_path t) true;
         UploadBlob (file_path t) png true;
         Info ("Uploaded image: " +:+ file_path t)]
      ∧ blobs w' !! archive_path t now = Some old
      ∧ blobs w' !! file_path t = Some (Bytes png)
      ∧ (∀ other, other ≠ file_path t → other ≠ archive_path t now →
           blobs w' !! other = blobs w !! other)
      ∧ dom (blobs w') = {[archive_path t now]} ∪ dom (blobs w)
  | None =>
      new_log w w'
      = [Exists (file_path t) (Some false); UploadBlob (file_path t) png true;
         Info ("Uploaded image: " +:+ file_path t)]
      ∧ blobs w' = <[file_path t := Bytes png]> (blobs w)
  end.
Proof.
  intros E%publish_Ok.
  destruct (blobs w !! file_path t) as [old|] eqn:Eold; [|done].
  destruct E as [Hl Hb]. pose proof (archive_path_ne t now) as Hne.
  split_and!; [done | | | |]; rewrite Hb.
  - by rewrite lookup_insert_ne, lookup_insert_eq.
  - by rewrite lookup_insert_eq.
  - intros other H1 H2. by rewrite !lookup_insert_ne.
  - rewrite !dom_insert_L. apply elem_of_dom_2 in Eold.
    apply subseteq_union_1_L, singleton_subseteq_l, elem_of_union_r, Eold.
Qed.

End Archive.

(** ** Rows *)

Section Rows.

Implicit Types (w : world) (t now : string) (c : cell) (row : list cell).

Lemma count_app f (a b : list event) : count f (a ++ b) = count f a + count f b.
Proof. unfold count. by rewrite List.filter_app, length_app. Qed.

Lemma count_cons f e (evs : list event) :
  count f (e :: evs) = (if f e then 1 else 0) + count f evs.
Proof. unfold count; simpl. by destruct (f e). Qed.

(** The cell on which [break] is taken: nothing after it is scanned. *)
Lemma scan_row_break now t c rest w w1 :
  candidate c = true → attempt now t c w = (Ok tt, w1) →
  scan_row now t (c :: rest) w = (Ok tt, w1).
Proof. intros Hc E. simpl. rewrite Hc. unfold mbind, M_bind, try_. by rewrite E. Qed.

(** The cell on which [continue] is taken: a warning, then the next cell. *)
Lemma scan_row_continue now t c rest w e w1 :
  candidate c = true → attempt now t c w = (Raise e, w1) →
  scan_row now t (c :: rest) w
  = scan_row now t rest (emit (Warning ("Image processing failed: " +:+ describe e)) w1).
Proof. intros Hc E. simpl. rewrite Hc. unfold mbind, M_bind, try_. by rewrite E. Qed.

Lemma scan_row_skip now t c rest w :
  candidate c = false → scan_row now t (c :: rest) w = scan_row now t rest w.
Proof. intros Hc. simpl. by rewrite Hc. Qed.

(** What one attempt adds to the counts. *)
Lemma attempt_counts now t c w r w1 :
  attempt now t c w = (r, w1) →
  ∃ evs, log w1 = log w ++ evs
       ∧ count warning evs = 0
       ∧ match r with
         | Ok _ => count uploaded evs = 1 ∧ count extracted evs = 1
                   ∧ count image_failure evs = 0
         | Raise _ => count uploaded evs = 0 ∧ count image_failure evs = 1
                      ∧ (count storage_failure evs = 0 → count extracted evs = 0)
         end.
Proof.
  intros [(png & evs & _ & Hl & Hp) | (-> & Hl & _)]%attempt_run.
  - eexists; split; [exact Hl |]. destruct Hp; vm_compute; split_and!; done.
  - eexists; split; [exact Hl |]. vm_compute. split_and!; done.
Qed.

Lemma scan_row_counts now t row w :
  ∃ evs, log (scan_row now t row w).2 = log w ++ evs
       ∧ (count uploaded evs ≤ 1)%nat
       ∧ (count storage_failure evs = 0 → (count extracted evs ≤ 1)%nat)
       ∧ count image_failure evs = count warning evs.
Proof.
  revert w; induction row as [|c row IH]; intros w.
  - exists []. rewrite app_nil_r. unfold count; simpl. split_and!; [done | lia | lia | done].
  - destruct (candidate c) eqn:Hc; [|rewrite scan_row_skip by done; apply IH].
    destruct (attempt now t c w) as [[[]|e] w1] eqn:E.
    + rewrite (scan_row_break _ _ _ _ _ _ Hc E). simpl.
      destruct (attempt_counts _ _ _ _ _ _ E) as (evs & Hl & Hw & Hu & Hx & Hf).
      exists evs. split_and!; [done | lia | lia | lia].
    + rewrite (scan_row_continue _ _ _ _ _ _ _ Hc E).
      destruct (attempt_counts _ _ _ _ _ _ E) as (evs & Hl & Hw & Hu & Hf & Hx).
      destruct (IH (emit (Warning ("Image processing failed: " +:+ describe e)) w1))
        as (evs' & Hl' & Hu' & Hx' & Hf').
      exists (evs ++ Warning ("Image processing failed: " +:+ describe e) :: evs').
      split_and!.
      * rewrite Hl'. simpl. rewrite Hl, <- !app_assoc. done.
      * rewrite count_app, count_cons. simpl. lia.
      * rewrite !count_app, !count_cons. simpl. lia.
      * rewrite !count_app, !count_cons. simpl. lia.
Qed.

End Rows.

(** ** Sheets *)

Section Sheets.

Implicit Types (w : world) (t now : string) (c : cell) (row : list cell).








End Sheets.

(** ** The target path of a sheet *)

Section Target.

Implicit Types (w : world) (t now : string) (m : gmap string content).

(** After the last upload that went through, the target is lost exactly by
    a deletion. *)
Lemma replay_tail now t (post : list event) m :
  Forall (λ e, sheet_event now t e = true) post → count uploaded post = 0 →
  (DeleteBlob (file_path t) true ∉ post → replay post m !! file_path t = m !! file_path t)
  ∧ (DeleteBlob (file_path t) true ∈ post → replay post m !! file_path t = None).
Proof.
  intros HQ. revert m. induction HQ as [|e post He _ IH]; intros m Hc.
  - split; [done |]. by intros ?%elem_of_nil.
  - rewrite count_cons in Hc. unfold replay in *; simpl.
    assert (count uploaded post = 0) as Hc' by lia.
    destruct (IH (apply_event m e) Hc') as [IH1 IH2].
    assert (∀ m', DeleteBlob (file_path t) true ∈ post ∨ m' !! file_path t = None →
                  fold_left apply_event post m' !! file_path t = None) as Hgone.
    { intros m' [Hin | Hnone]; [by apply (proj2 (IH m' Hc')) |].
      destruct (IH m' Hc') as [H1 H2].
      destruct (decide (DeleteBlob (file_path t) true ∈ post)) as [Hin|Hout];
        [by apply H2 | by rewrite H1]. }
    pose proof (archive_path_ne t now) as Hne.
    rewrite not_elem_of_cons, elem_of_cons.
    destruct e as [msg | msg | msg | rows ok | s coord ok | p a | src dst [] | p [] | p d []];
      simpl in *; try done;
      try solve [split; [intros [_ ?]; auto | intros [[=] | ?]; auto]].
    + apply andb_true_iff in He as [Hs Hd].
      apply bool_decide_eq_true in Hs, Hd. subst src dst.
      destruct (m !! file_path t) as [c|] eqn:Em.
      * split; [intros [_ Hout] | intros [[=] | Hin]; auto].
        rewrite (IH1 Hout). by rewrite lookup_insert_ne.
      * split; [intros [_ Hout] | intros [[=] | Hin]; auto].
        by rewrite (IH1 Hout).
    + apply bool_decide_eq_true in He. subst p.
      split; [by intros [? _] | intros _].
      apply Hgone. right. apply lookup_delete_eq.
Qed.

End Target.

(** ** Logs of an invocation *)

Lemma image_event_split (evs pre post : list event) e :
  Forall (λ e, image_event e = false) evs → evs = pre ++ e :: post →
  image_event e = true → False.
Proof.
  intros H -> He. apply Forall_app in H as [_ H]. apply Forall_cons in H as [H _].
  congruence.
Qed.

Lemma sheet_event_not_append (now : string) (evs : list event) (wb : list worksheet) rows ok :
  Forall (λ e, ∃ sheet, sheet ∈ wb ∧ sheet_event now (title sheet) e = true) evs →
  ToSql rows ok ∉ evs.
Proof.
  intros H Hin. rewrite Forall_forall in H. by destruct (H _ Hin) as (s & _ & ?).
Qed.

(** * The claims *)




(** C2. When the append of line 86 raises, the invocation answers 500 with
    the body [Database upload failed.], the container and the table are
    unchanged and no image operation is logged; and in every invocation an
    image operation is logged only after a successful append. *)
Theorem C2_load_failure_stops_before_images container_name current_time req w :
  let out := (main container_name current_time req w).1 in
  let w' := (main container_name current_time req w).2 in
  ((∃ rows, ToSql rows false ∈ new_log w w') →
     out = Returned (HttpResponse "Database upload failed." 500)
     ∧ blobs w' = blobs w
     ∧ table_DATASET w' = table_DATASET w
     ∧ Forall (λ e, image_event e = false) (new_log w w'))
  ∧ (∀ pre e post, new_log w w' = pre ++ e :: post → image_event e = true →
       ∃ rows, ToSql rows true ∈ pre).
Proof.
  intros out w'. subst out w'.
  destruct (main container_name current_time req w) as [out w'] eqn:E. simpl.
  destruct (main_runs _ _ _ _ _ _ E)
    as [w' _ Hl Hb Ht _ | name w' _ Hl Hb Ht _ | name c e w' _ _ Hl Hb Ht _
        | name c df0 df w' _ _ _ Hl Hb Ht
        | name wb df0 df evs w' _ _ _ Hl HQ Hb Ht _
        | name wb df0 df before sheet after evs w' _ _ _ Hl HQ Hb Ht _ _ _];
    rewrite Hl; clear Hl.
  - split.
    + intros [rows Hin]. repeat (apply elem_of_cons in Hin as [?|Hin]; [done |]).
      by apply elem_of_nil in Hin.
    + intros pre e post Heq He. exfalso.
      eapply image_event_split; [|exact Heq | exact He]. by repeat constructor.
  - split.
    + intros [rows Hin]. repeat (apply elem_of_cons in Hin as [?|Hin]; [done |]).
      by apply elem_of_nil in Hin.
    + intros pre e post Heq He. exfalso.
      eapply image_event_split; [|exact Heq | exact He]. by repeat constructor.
  - split.
    + intros [rows Hin]. repeat (apply elem_of_cons in Hin as [?|Hin]; [done |]).
      by apply elem_of_nil in Hin.
    + intros pre e' post Heq He. exfalso.
      eapply image_event_split; [|exact Heq | exact He]. by repeat constructor.
  - split.
    + intros _. split_and!; try done. by repeat constructor.
    + intros pre e post Heq He. exfalso.
      eapply image_event_split; [|exact Heq | exact He]. by repeat constructor.
  - split.
    + intros [rows Hin]. exfalso.
      repeat (apply elem_of_cons in Hin as [?|Hin]; [done |]).
      by eapply sheet_event_not_append.
    + intros pre e post Heq He.
      destruct pre as [|e1 [|e2 [|e3 [|e4 [|e5 pre]]]]]; simplify_eq/=.
      exists (records df). set_solver.
  - split.
    + intros [rows Hin]. exfalso.
      repeat (apply elem_of_cons in Hin as [?|Hin]; [done |]).
      by eapply sheet_event_not_append.
    + intros pre e post Heq He.
      destruct pre as [|e1 [|e2 [|e3 [|e4 [|e5 pre]]]]]; simplify_eq/=.
      exists (records df). set_solver.
Qed.

(** C2 at scenario C: the append raises. *)
Lemma C2_witness :
  let w := Scenario.start Scenario.book [] [true] in
  let out := (main "reports" Scenario.clock Scenario.alice w).1 in
  let w' := (main "reports" Scenario.clock Scenario.alice w).2 in
  out = Returned (HttpResponse "Database upload failed." 500)
  ∧ blobs w' = blobs w
  ∧ table_DATASET w' = table_DATASET w
  ∧ Forall (λ e, image_event e = false) (new_log w w').
Proof.
  intros w out w'.
  apply (proj1 (C2_load_failure_stops_before_images "reports" Scenario.clock Scenario.alice w)).
  eexists. vm_compute. do 3 apply list_elem_of_further. apply list_elem_of_here.
Defined.

(** C3. An identifier that matches no object under the listing prefix, and
    in particular an absent or empty identifier, which matches no name at
    all, makes the invocation answer 404 with the body
    [No file found for user <identifier>]; the container and the table are
    left as they were and neither an append nor an image operation is
    logged. *)
Theorem C3_not_found_has_no_side_effects container_name current_time req w :
  truthy (email req) = false
  ∨ (∀ name c, blobs w !! name = Some c → startswith "DATASET/Current" name = true →
               matches (email req) name = false) →
  (truthy (email req) = false → ∀ name, matches (email req) name = false)
  ∧ ∃ w',
      main container_name current_time req w
      = (Returned (HttpResponse ("No file found for user " +:+ fmt (email req)) 404), w')
      ∧ (∀ ident, email req = Some ident →
           contains ident ("No file found for user " +:+ fmt (email req)) = true)
      ∧ blobs w' = blobs w
      ∧ table_DATASET w' = table_DATASET w
      ∧ Forall (λ e, image_event e = false ∧ ∀ rows ok, e ≠ ToSql rows ok) (new_log w w').
Proof.
  intros H. split; [intros Hf name; by apply matches_falsy |].
  assert (first_match (email req) (list_blobs "DATASET/Current" w) = None) as Hnone.
  { apply first_match_None. destruct H as [Hf|H]; [|done].
    intros name c _ _. by apply matches_falsy. }
  destruct (main container_name current_time req w) as [out w'] eqn:E.
  exists w'. destruct (main_runs _ _ _ _ _ _ E) as [w' _ Hl Hb Ht _| | | | |]; try congruence.
  split_and!; try done.
  - intros ident ->. apply contains_app_r.
  - rewrite Hl. repeat constructor; done.
Qed.

(** C3 at scenario B: the container holds the workbook of another user. *)
Lemma C3_witness :
  let w := Scenario.start Scenario.book [] [] in
  let req := Scenario.bob in
  (truthy (email req) = false → ∀ name, matches (email req) name = false)
  ∧ ∃ w',
      main "reports" Scenario.clock req w
      = (Returned (HttpResponse ("No file found for user " +:+ fmt (email req)) 404), w')
      ∧ (∀ ident, email req = Some ident →
           contains ident ("No file found for user " +:+ fmt (email req)) = true)
      ∧ blobs w' = blobs w
      ∧ table_DATASET w' = table_DATASET w
      ∧ Forall (λ e, image_event e = false ∧ ∀ rows ok, e ≠ ToSql rows ok) (new_log w w').
Proof.
  intros w req.
  apply (C3_not_found_has_no_side_effects "reports" Scenario.clock req w).
  right. intros name c Hname _. unfold w in Hname. simpl in Hname.
  unfold Scenario.container_with in Hname. simpl in Hname.
  apply lookup_insert_Some in Hname as [[<- _] | [_ Hname]]; [reflexivity |].
  by rewrite lookup_empty in Hname.
Defined.




(** C5 (amended). In the scan of a row at most one picture reaches the
    target path: the scan of the row ends at the first cell whose picture is
    read and published, a cell whose attempt raises is skipped with a
    warning and the next cell of the same row is tried, so a second picture
    of the row is read only after a failure; when no blob operation fails,
    at most one picture is read from the row.  The rows after it are scanned
    in every case. *)
Theorem C5_one_published_picture_per_row current_time sheet_title row w :
  let w' := (scan_row current_time sheet_title row w).2 in
  (count uploaded (new_log w w') ≤ 1)%nat
  ∧ (count storage_failure (new_log w w') = 0 → (count extracted (new_log w w') ≤ 1)%nat)
  ∧ (∀ c rest w1, row = c :: rest → candidate c = true →
       attempt current_time sheet_title c w = (Ok tt, w1) → w' = w1)
  ∧ (∀ c rest e w1, row = c :: rest → candidate c = true →
       attempt current_time sheet_title c w = (Raise e, w1) →
       w' = (scan_row current_time sheet_title rest
               (emit (Warning ("Image processing failed: " +:+ describe e)) w1)).2)
  ∧ (∀ rows, scan_rows current_time sheet_title (row :: rows) w
             = scan_rows current_time sheet_title rows w').
Proof.
  intros w'. subst w'.
  destruct (scan_row_counts current_time sheet_title row w) as (evs & Hl & Hu & Hx & _).
  rewrite (new_log_app _ _ _ Hl). split_and!; [done | done | | |].
  - intros c rest w1 -> Hc E. by rewrite (scan_row_break _ _ _ _ _ _ Hc E).
  - intros c rest e w1 -> Hc E. by rewrite (scan_row_continue _ _ _ _ _ _ _ Hc E).
  - intros rows. simpl. unfold mbind, M_bind.
    pose proof (scan_row_returns current_time sheet_title row w) as Hr.
    destruct (scan_row current_time sheet_title row w) as [[[]|e] w1]; done.
Qed.

(** C5 on row 1 of sheet [Q3] when every call goes through. *)
Lemma C5_witness :
  let w := Scenario.start Scenario.book [] [] in
  let w' := (scan_row Scenario.clock "Q3"
               [Scenario.picture_cell "A1" "logo"; Scenario.picture_cell "B1" "first";
                Scenario.picture_cell "C1" "second"] w).2 in
  count storage_failure (new_log w w') = 0 ∧ (count extracted (new_log w w') ≤ 1)%nat.
Proof.
  intros w w'. assert (count storage_failure (new_log w w') = 0) as H by reflexivity.
  split; [exact H |].
  exact (proj1 (proj2 (C5_one_published_picture_per_row Scenario.clock "Q3" _ w)) H).
Defined.

(** C5 as stated fails: the upload of the picture of [B1] raises, the scan
    goes on in the same row and the picture of [C1] is read and published as
    well. *)
Lemma C5_counterexample :
  let w := Scenario.start Scenario.book [] [false; true] in
  let w' := (scan_row Scenario.clock "Q3"
               [Scenario.picture_cell "A1" "logo"; Scenario.picture_cell "B1" "first";
                Scenario.picture_cell "C1" "second"] w).2 in
  List.filter extracted (new_log w w')
  = [ImageGet "Q3" "B1" true; ImageGet "Q3" "C1" true]
  ∧ List.filter uploaded (new_log w w') = [UploadBlob "DATASET/Q3/Q3.png" "second" true].
Proof. vm_compute. split; reflexivity. Qed.








(** C9 (amended). Every picture of a sheet is uploaded to the one path
    [DATASET/<sheet>/<sheet>.png], whatever its row or cell; a publish that
    goes through while that path holds the picture of an earlier row copies
    that picture to the archive path and replaces it; and after the scan of
    the sheet the path holds the picture of the last upload that went
    through, unless a later attempt of the same scan deleted the target and
    then failed, in which case the path holds nothing. *)
Theorem C9_one_target_path_per_sheet current_time sheet w :
  let w' := (scan_sheet current_time sheet w).2 in
  let path := file_path (title sheet) in
  let archive := archive_path (title sheet) current_time in
  (∀ p data ok, UploadBlob p data ok ∈ new_log w w' → p = path)
  ∧ (∀ png previous w1 w2,
       blobs w1 !! path = Some previous →
       publish current_time (title sheet) png w1 = (Ok tt, w2) →
       blobs w2 !! archive = Some previous ∧ blobs w2 !! path = Some (Bytes png))
  ∧ (∀ pre data post,
       new_log w w' = pre ++ UploadBlob path data true :: post →
       count uploaded post = 0 →
       (DeleteBlob path true ∉ post → blobs w' !! path = Some (Bytes data))
       ∧ (DeleteBlob path true ∈ post → blobs w' !! path = None)).
Proof.
  intros w' path archive. subst w' path archive.
  destruct (scan_sheet current_time sheet w) as [r w'] eqn:E.
  destruct (logged_scan_sheet _ _ _ _ _ E) as (evs & Hl & HQ & Hb & _). simpl.
  rewrite (new_log_app _ _ _ Hl). split_and!.
  - intros p data ok Hin. rewrite Forall_forall in HQ. specialize (HQ _ Hin).
    simpl in HQ. by apply bool_decide_eq_true in HQ.
  - intros png previous w1 w2 Hprev Hpub.
    pose proof (publish_replaces _ _ _ _ _ Hpub) as H. rewrite Hprev in H.
    by destruct H as (_ & ? & ? & _).
  - intros pre data post -> Hc. rewrite Hb.
    apply Forall_app in HQ as [_ HQ]. apply Forall_cons in HQ as [_ HQ].
    unfold replay. rewrite fold_left_app. simpl.
    destruct (replay_tail current_time (title sheet) post
                (<[file_path (title sheet) := Bytes data]>
                   (fold_left apply_event pre (blobs w))) HQ Hc) as [H1 H2].
    unfold replay in *. split; [|done].
    intros Hout. by rewrite (H1 Hout), lookup_insert_eq.
Qed.

(** C9 on sheet [Q3] when every call goes through: the target ends with the
    picture of row 2. *)
Lemma C9_witness :
  let w := Scenario.start Scenario.book [] [] in
  let w' := (scan_sheet Scenario.clock Scenario.q3 w).2 in
  blobs w' !! file_path "Q3" = Some (Bytes "third").
Proof.
  intros w w'.
  refine (proj1 (proj2 (proj2 (C9_one_target_path_per_sheet Scenario.clock Scenario.q3 w))
            (firstn 8 (new_log w w')) "third" (skipn 9 (new_log w w')) _ _) _).
  - vm_compute. reflexivity.
  - reflexivity.
  - vm_compute. intros H. apply list_elem_of_singleton in H. discriminate H.
Defined.

(** C9 as stated fails: the picture of row 1 of sheet [Q3] is published,
    then the attempt for row 2 copies and deletes it and its upload raises;
    the invocation answers 200, the last picture published is the one of
    row 1, and the target path holds nothing. *)
Lemma C9_counterexample :
  let w := Scenario.start Scenario.book []
             [false; false; false; false; false; false; true] in
  let out := (main "reports" Scenario.clock Scenario.alice w).1 in
  let w' := (main "reports" Scenario.clock Scenario.alice w).2 in
  out = Returned (HttpResponse success_body 200)
  ∧ List.filter uploaded (new_log w w') = [UploadBlob "DATASET/Q3/Q3.png" "first" true]
  ∧ blobs w' !! file_path "Q3" = None
  ∧ blobs w' !! archive_path "Q3" Scenario.clock = Some (Bytes "first").
Proof. vm_compute. split_and!; reflexivity. Qed.

(** C10. A located workbook whose [Sheet1] has neither an [OldName] nor a
    [DATASET_ID] column makes line 74 raise [KeyError]: the invocation ends
    with that unhandled exception, which is neither the 404 nor the 500
    response, and nothing was appended or published before. *)
Theorem C10_missing_identifier_column_is_unhandled
    container_name current_time req w name wb df :
  first_match (email req) (list_blobs "DATASET/Current" w) = Some (name, Xlsx wb) →
  read_excel (Xlsx wb) "Sheet1" = Ok df →
  "OldName" ∉ labels df → "DATASET_ID" ∉ labels df →
  ∃ w',
    main container_name current_time req w = (Unhandled (KeyError "DATASET_ID"), w')
    ∧ blobs w' = blobs w
    ∧ table_DATASET w' = table_DATASET w
    ∧ new_log w w'
      = [Info "Processing request for Excel upload and database update.";
         Info ("Request from user: " +:+ fmt (email req));
         Info ("Found Excel file: " +:+ name)].
Proof.
  intros Hf Hr Hold Hid.
  assert (normalize container_name current_time (email req) df
          = Raise (KeyError "DATASET_ID")) as Hn.
  { unfold normalize, add_image_link. rewrite getitem_missing; [done |].
    unfold add_metadata, setitem_scalar.
    do 3 (apply labels_setitem_other; [|done]).
    apply labels_rename_absent; [done | |]; intros ?%labels_drop; done. }
  destruct (main container_name current_time req w) as [out w'] eqn:E.
  exists w'.
  destruct (main_runs _ _ _ _ _ _ E)
    as [w' Hf' _ _ _ _ | name' w' Hf' _ _ _ _ | name' c e w' Hf' He Hl Hb Ht _
        | name' c df0 df' w' Hf' Hr' Hn' _ _ _
        | name' wb' df0 df' evs w' Hf' Hr' Hn' _ _ _ _ _
        | name' wb' df0 df' before sheet after evs w' Hf' Hr' Hn' _ _ _ _ _ _ _];
    rewrite Hf in Hf'; simplify_eq.
  - rewrite Hr, Hn in He. by simplify_eq.
  - congruence.
  - congruence.
  - congruence.
Qed.

(** C10 at a workbook whose [Sheet1] has the column [Owner] only. *)
Lemma C10_witness :
  let w := Scenario.start Scenario.book_without_identifier [] [] in
  ∃ w',
    main "reports" Scenario.clock Scenario.alice w = (Unhandled (KeyError "DATASET_ID"), w')
    ∧ blobs w' = blobs w
    ∧ table_DATASET w' = table_DATASET w
    ∧ new_log w w'
      = [Info "Processing request for Excel upload and database update.";
         Info ("Request from user: " +:+ fmt (email Scenario.alice));
         Info ("Found Excel file: " +:+ "DATASET/Current_alice@example.com.xlsx")].
Proof.
  intros w.
  apply (C10_missing_identifier_column_is_unhandled "reports" Scenario.clock Scenario.alice w
           "DATASET/Current_alice@example.com.xlsx" Scenario.book_without_identifier
           Scenario.no_identifier).
  - vm_compute. reflexivity.
  - reflexivity.
  - apply not_elem_of_cons. split; [discriminate | apply not_elem_of_nil].
  - apply not_elem_of_cons. split; [discriminate | apply not_elem_of_nil].
Defined.

(** * Further properties of [main] *)

(** ** The frame after lines 65 to 79 *)

Section Normalized.

Implicit Types (df : DataFrame) (name : string) (r : record).

Lemma frame_eq df df' : nrows df = nrows df' → columns df = columns df' → df = df'.
Proof. destruct df, df'; simpl. by intros -> ->. Qed.

Lemma drop_absent name df : name ∉ labels df → drop [name] df = df.
Proof.
  intros Hn. apply frame_eq; [done |]. unfold labels in Hn. simpl.
  induction (columns df) as [|[n vs] cols IH]; [done |]. simpl in *.
  apply not_elem_of_cons in Hn as [Hne Hn].
  rewrite bool_decide_false; [simpl; by rewrite IH |].
  by intros ->%list_elem_of_singleton.
Qed.

Lemma rename_absent old new df : old ∉ labels df → rename old new df = df.
Proof.
  intros Hn. apply frame_eq; [done |]. unfold labels in Hn. simpl.
  induction (columns df) as [|[n vs] cols IH]; [done |]. simpl in *.
  apply not_elem_of_cons in Hn as [Hne Hn].
  rewrite decide_False by done. by rewrite IH.
Qed.

Lemma labels_drop_gone name df : name ∉ labels (drop [name] df).
Proof.
  unfold labels, drop; simpl. rewrite list_elem_of_fmap. intros ([n vs] & -> & Hin).
  apply list_elem_of_In, filter_In in Hin as [_ Hin]. simpl in Hin.
  apply negb_true_iff, bool_decide_eq_false in Hin. apply Hin, list_elem_of_here.
Qed.

Lemma labels_rename_gone old new df : old ≠ new → old ∉ labels (rename old new df).
Proof.
  intros Hne. unfold labels, rename; simpl. rewrite <- list_fmap_compose.
  rewrite list_elem_of_fmap. intros ([n vs] & Heq & _). simpl in Heq.
  case_decide; congruence.
Qed.

Lemma labels_rename_keep old new name df :
  name ≠ new → name ∉ labels df → name ∉ labels (rename old new df).
Proof.
  intros Hne Hn. unfold labels, rename in *; simpl. rewrite <- list_fmap_compose.
  rewrite list_elem_of_fmap. intros ([n vs] & Heq & Hin). simpl in Heq.
  case_decide; [congruence |]. subst n. apply Hn, list_elem_of_fmap. by exists (name, vs).
Qed.

Lemma labels_replace table df : labels (replace table df) = labels df.
Proof. unfold labels, replace; simpl. by rewrite <- list_fmap_compose. Qed.

Lemma normalize_inv container_name current_time user_email df df' :
  normalize container_name current_time user_email df = Ok df' →
  ∃ ids, getitem "DATASET_ID" (add_metadata current_time user_email df) = Ok ids
       ∧ df' = replace encoding_fixes
                 (setitem "Image_link" (map (λ x, VStr (image_link container_name x)) ids)
                    (add_metadata current_time user_email df)).
Proof.
  unfold normalize, add_image_link.
  destruct (getitem _ _) as [ids|e]; [|done]. intros [= <-]. by exists ids.
Qed.

End Normalized.

(** X1. Lines 65 and 68 tolerate a missing column: on a frame without the
    column to drop the drop returns the frame as it is, and on a frame
    without the column to rename the rename does. *)
Theorem missing_column_is_left_alone df :
  ("Unused_Column" ∉ labels df → drop ["Unused_Column"] df = df)
  ∧ ("OldName" ∉ labels df → rename "OldName" "DATASET_ID" df = df).
Proof. split; [apply drop_absent | apply rename_absent]. Qed.

Lemma missing_column_is_left_alone_witness :
  drop ["Unused_Column"] Scenario.no_identifier = Scenario.no_identifier
  ∧ rename "OldName" "DATASET_ID" Scenario.no_identifier = Scenario.no_identifier.
Proof.
  destruct (missing_column_is_left_alone Scenario.no_identifier) as [H1 H2].
  split; [apply H1 | apply H2];
    (apply not_elem_of_cons; split; [discriminate | apply not_elem_of_nil]).
Defined.

(** X2. A frame that normalisation accepts no longer has a column named
    [Unused_Column] or [OldName], whatever the sheet held. *)
Theorem normalized_frame_drops_old_labels container_name current_time user_email df df' :
  normalize container_name current_time user_email df = Ok df' →
  ("Unused_Column" ∉ labels df') ∧ ("OldName" ∉ labels df').
Proof.
  intros (ids & _ & ->)%normalize_inv. rewrite labels_replace.
  unfold add_metadata, setitem_scalar. split.
  - do 4 (apply labels_setitem_other; [|done]).
    apply labels_rename_keep; [done |]. apply labels_drop_gone.
  - do 4 (apply labels_setitem_other; [|done]).
    by apply labels_rename_gone.
Qed.

Lemma normalized_frame_drops_old_labels_witness :
  ∃ df', normalize "reports" Scenario.clock (Some "alice@example.com") Scenario.orders = Ok df'
       ∧ ("Unused_Column" ∉ labels df') ∧ ("OldName" ∉ labels df').
Proof.
  destruct (normalize "reports" Scenario.clock (Some "alice@example.com") Scenario.orders)
    as [df'|e] eqn:E; [|vm_compute in E; discriminate E].
  exists df'. split; [reflexivity |].
  exact (normalized_frame_drops_old_labels _ _ _ _ _ E).
Defined.

Section Counting.

Implicit Types (df : DataFrame) (name : string).

Lemma labelled_pair name n (vs : list value) : labelled name (n, vs) = bool_decide (n = name).
Proof. done. Qed.

Lemma label_count_drop name names df :
  name ∉ names → label_count name (drop names df) = label_count name df.
Proof.
  intros Hn. unfold label_count, drop; simpl.
  induction (columns df) as [|[n vs] cols IH]; [done |]. simpl.
  destruct (decide (n = name)) as [->|Hne].
  - rewrite (bool_decide_false (name ∈ names)) by done. simpl.
    rewrite !labelled_pair, !bool_decide_true by done. simpl. by rewrite IH.
  - rewrite (labelled_pair name n), (bool_decide_false (n = name)) by done.
    destruct (negb _); simpl; [|done]. by rewrite labelled_pair, bool_decide_false.
Qed.

Lemma label_count_rename old new df :
  old ≠ new →
  label_count new (rename old new df) = label_count new df + label_count old df.
Proof.
  intros Hne. unfold label_count, rename; simpl.
  induction (columns df) as [|[n vs] cols IH]; [done |]. simpl.
  rewrite !labelled_pair.
  destruct (decide (n = old)) as [->|Hold];
    repeat case_bool_decide; try congruence; simpl; rewrite IH; lia.
Qed.

Lemma label_count_setitem name other vs df :
  other ≠ name → label_count other (setitem name vs df) = label_count other df.
Proof.
  intros Hne. unfold label_count, setitem; simpl. case_bool_decide as Hin; clear Hin.
  - induction (columns df) as [|[n ws] cols IH]; [done |]. simpl.
    destruct (decide (n = name)) as [->|Hn]; rewrite !labelled_pair;
      repeat case_bool_decide; try congruence; simpl; by rewrite IH.
  - rewrite List.filter_app, length_app. simpl.
    rewrite labelled_pair, bool_decide_false by done. simpl. lia.
Qed.

Lemma getitem_single name df :
  label_count name df = 1 → ∃ ids, getitem name df = Ok ids.
Proof.
  unfold label_count, getitem.
  destruct (List.filter _ _) as [|col [|col' l]]; simpl; [done | eauto | done].
Qed.

Lemma nrows_add_metadata current_time user_email df :
  nrows (add_metadata current_time user_email df) = nrows df.
Proof. done. Qed.

Lemma well_formed_replace table df : well_formed df → well_formed (replace table df).
Proof.
  unfold well_formed, replace; simpl. rewrite Forall_map.
  intros H. eapply Forall_impl; [exact H |]. intros [n vs]; simpl. by rewrite length_map.
Qed.

Lemma length_records df : length (records df) = nrows df.
Proof. unfold records. by rewrite length_map, length_seq. Qed.

End Counting.

(** X3. Normalisation goes through as soon as exactly one column of the
    sheet is named [OldName] or [DATASET_ID]; the frame it returns has the
    row count of the sheet, all its columns have that length, and [to_sql]
    receives one record per row. *)
Theorem normalize_accepts_a_single_identifier_column
    container_name current_time user_email df :
  well_formed df →
  label_count "DATASET_ID" df + label_count "OldName" df = 1 →
  ∃ df', normalize container_name current_time user_email df = Ok df'
       ∧ nrows df' = nrows df
       ∧ well_formed df'
       ∧ length (records df') = nrows df.
Proof.
  intros Hwf Hc.
  assert (label_count "DATASET_ID" (add_metadata current_time user_email df) = 1) as Hone.
  { unfold add_metadata, setitem_scalar.
    rewrite !label_count_setitem by done. rewrite label_count_rename by done.
    rewrite !label_count_drop; [done | |]; by intros ?%list_elem_of_singleton. }
  destruct (getitem_single _ _ Hone) as [ids Hids].
  unfold normalize, add_image_link. rewrite Hids. eexists. split; [done |].
  apply (well_formed_add_metadata current_time user_email) in Hwf.
  assert (length ids = nrows df) as Hlen.
  { apply getitem_Ok, find_labelled_elem in Hids as [Hin _].
    unfold well_formed in Hwf. rewrite Forall_forall in Hwf. apply (Hwf _ Hin). }
  split_and!.
  - done.
  - apply well_formed_replace, well_formed_setitem; [|done]. by rewrite length_map.
  - by rewrite length_records.
Qed.

Lemma normalize_accepts_a_single_identifier_column_witness :
  ∃ df', normalize "reports" Scenario.clock (Some "alice@example.com") Scenario.orders = Ok df'
       ∧ nrows df' = nrows Scenario.orders
       ∧ well_formed df'
       ∧ length (records df') = nrows Scenario.orders.
Proof.
  apply normalize_accepts_a_single_identifier_column; [by repeat constructor | reflexivity].
Defined.

Section Metadata.

Implicit Types (df : DataFrame) (name : string) (r : record).



Lemma labels_setitem_fresh name vs df :
  name ∉ labels df → labels (setitem name vs df) = labels df ++ [name].
Proof.
  intros Hn. unfold setitem, labels at 1; simpl.
  rewrite bool_decide_false by done. by rewrite fmap_app.
Qed.

Lemma columns_replace table df :
  columns (replace table df)
  = map (λ col, (col.1, map (replace_value table) col.2)) (columns df).
Proof. done. Qed.


End Metadata.



(** A membership in a list of distinct literals that does not hold. *)
Ltac listed H :=
  repeat (apply elem_of_cons in H as [H | H]; [discriminate H |]);
  by apply elem_of_nil in H.

(** X5. When the sheet has no column named like an injected one, the
    normalised frame has the columns of the sheet in their order, without
    [Unused_Column] and with [OldName] renamed, followed by [Create_date],
    [Last_modified], [Created_by] and [Image_link]. *)
Theorem column_order_of_the_normalized_frame
    container_name current_time user_email df df' :
  normalize container_name current_time user_email df = Ok df' →
  Forall (λ name, name ∉ labels df) injected_labels →
  labels df'
  = labels (rename "OldName" "DATASET_ID" (drop ["Unused_Column"] df)) ++ injected_labels.
Proof.
  intros (ids & _ & ->)%normalize_inv Hfresh. rewrite labels_replace.
  assert (∀ name, name ∈ injected_labels →
            name ∉ labels (rename "OldName" "DATASET_ID" (drop ["Unused_Column"] df)))
    as Hbase.
  { intros name Hin. rewrite Forall_forall in Hfresh.
    apply labels_rename_keep.
    - intros ->. listed Hin.
    - intros ?%labels_drop. by apply (Hfresh name). }
  unfold add_metadata, setitem_scalar.
  set (D := rename "OldName" "DATASET_ID" (drop ["Unused_Column"] df)) in *.
  assert (labels (setitem "Create_date" (replicate (nrows D) (VStr current_time)) D)
          = labels D ++ ["Create_date"]) as H1.
  { apply labels_setitem_fresh, Hbase. by repeat constructor. }
  set (D1 := setitem "Create_date" _ D) in *.
  assert (labels (setitem "Last_modified" (replicate (nrows D1) (VStr current_time)) D1)
          = labels D ++ ["Create_date"; "Last_modified"]) as H2.
  { rewrite labels_setitem_fresh, H1; [by rewrite <- app_assoc |].
    rewrite H1, elem_of_app. intros [Hin | Hin]; [|listed Hin].
    revert Hin. apply Hbase. by repeat constructor. }
  set (D2 := setitem "Last_modified" _ D1) in *.
  assert (labels (setitem "Created_by" (replicate (nrows D2) (of_param user_email)) D2)
          = labels D ++ ["Create_date"; "Last_modified"; "Created_by"]) as H3.
  { rewrite labels_setitem_fresh, H2; [by rewrite <- app_assoc |].
    rewrite H2, elem_of_app. intros [Hin | Hin]; [|listed Hin].
    revert Hin. apply Hbase. by repeat constructor. }
  set (D3 := setitem "Created_by" _ D2) in *.
  rewrite labels_setitem_fresh, H3; [by rewrite <- app_assoc |].
  rewrite H3, elem_of_app. intros [Hin | Hin]; [|listed Hin].
  revert Hin. apply Hbase. by repeat constructor.
Qed.

Lemma column_order_of_the_normalized_frame_witness :
  ∃ df',
    normalize "reports" Scenario.clock (Some "alice@example.com") Scenario.orders = Ok df'
    ∧ labels df'
      = ["DATASET_ID"; "Owner"; "Create_date"; "Last_modified"; "Created_by"; "Image_link"].
Proof.
  destruct (normalize "reports" Scenario.clock (Some "alice@example.com") Scenario.orders)
    as [df'|e] eqn:E; [|vm_compute in E; discriminate E].
  exists df'. split; [reflexivity |].
  refine (column_order_of_the_normalized_frame _ _ _ _ _ E _).
  unfold injected_labels, Scenario.orders, labels; simpl.
  repeat constructor; intros Hin; listed Hin.
Defined.

(** X6. The repair of line 79 is idempotent, on a text and on a frame:
    running it on repaired data changes nothing. *)
Theorem encoding_repair_is_idempotent :
  (∀ s, fix_encoding (fix_encoding s) = fix_encoding s)
  ∧ (∀ df, replace encoding_fixes (replace encoding_fixes df) = replace encoding_fixes df).
Proof.
  assert (∀ s, fix_encoding (fix_encoding s) = fix_encoding s) as Htext.
  { intros s. apply fix_encoding_absent; apply fix_encoding_clean. }
  split; [done |]. intros df. apply frame_eq; [done |].
  rewrite !columns_replace, map_map. apply map_ext. intros [n vs]. simpl.
  f_equal. rewrite map_map. apply map_ext. intros [s | | |]; simpl; [|done ..].
  f_equal. apply Htext.
Qed.

(** ** Paths *)

#[local] Arguments String.append : simpl nomatch.

Section Paths.

Implicit Types (s t a b x y now : string).

Lemma string_app_inj_length a b x y :
  String.length a = String.length b → a +:+ x = b +:+ y → a = b ∧ x = y.
Proof.
  revert b; induction a as [|c a IH]; intros [|d b]; simpl; try done.
  intros [= Hlen] [= -> H]. by destruct (IH _ Hlen H) as [-> ->].
Qed.

Lemma string_app_inv_tail a b s : a +:+ s = b +:+ s → a = b.
Proof.
  intros H. assert (String.length a = String.length b) as Hlen.
  { apply (f_equal String.length) in H. rewrite !string_length_app in H. lia. }
  by destruct (string_app_inj_length _ _ _ _ Hlen H).
Qed.

(** Two texts without a slash that are followed by a slash. *)
Lemma slash_split a b x y :
  occurs "/" a = false → occurs "/" b = false →
  a +:+ String "/" x = b +:+ String "/" y → a = b ∧ x = y.
Proof.
  revert b; induction a as [|c a IH]; intros [|d b]; simpl.
  - by intros _ _ [= ->].
  - case_decide; [done |]. intros _ _ [= ? _]. congruence.
  - case_decide; [done |]. intros _ _ [= ? _]. congruence.
  - do 2 (case_decide; [done |]). intros Ha Hb [= -> Heq].
    by destruct (IH _ Ha Hb Heq) as [-> ->].
Qed.

Lemma file_path_inj t t' : file_path t = file_path t' → t = t'.
Proof.
  intros H. assert (String.length t = String.length t') as Hlen.
  { apply (f_equal String.length) in H. unfold file_path in H.
    repeat (rewrite ?string_length_app in H; simpl in H). lia. }
  unfold file_path in H. apply String.app_inj in H.
  by destruct (string_app_inj_length _ _ _ _ Hlen H).
Qed.

Lemma archive_path_not_target t t' now :
  occurs "/" t = false → occurs "/" t' = false → archive_path t now ≠ file_path t'.
Proof.
  intros Ht Ht' H. unfold archive_path, file_path in H. apply String.app_inj in H.
  change (t +:+ "/Archive/" +:+ t +:+ "_" +:+ now +:+ ".png")
    with (t +:+ String "/" ("Archive/" +:+ t +:+ "_" +:+ now +:+ ".png")) in H.
  change (t' +:+ "/" +:+ t' +:+ ".png") with (t' +:+ String "/" (t' +:+ ".png")) in H.
  apply slash_split in H as [-> H]; [|done ..].
  apply (f_equal String.length) in H.
  repeat (rewrite ?string_length_app in H; simpl in H). lia.
Qed.

Lemma archive_path_inj t t' now now' :
  occurs "/" t = false → occurs "/" t' = false →
  archive_path t now = archive_path t' now' → t = t' ∧ now = now'.
Proof.
  intros Ht Ht' H. unfold archive_path in H. apply String.app_inj in H.
  change (t +:+ "/Archive/" +:+ t +:+ "_" +:+ now +:+ ".png")
    with (t +:+ String "/" ("Archive/" +:+ t +:+ "_" +:+ now +:+ ".png")) in H.
  change (t' +:+ "/Archive/" +:+ t' +:+ "_" +:+ now' +:+ ".png")
    with (t' +:+ String "/" ("Archive/" +:+ t' +:+ "_" +:+ now' +:+ ".png")) in H.
  apply slash_split in H as [-> H]; [|done ..]. split; [done |].
  do 3 apply String.app_inj in H. by apply string_app_inv_tail in H.
Qed.

Lemma endswith_app suffix a : endswith suffix (a +:+ suffix) = true.
Proof.
  unfold endswith. rewrite string_length_app.
  rewrite bool_decide_true by lia.
  replace (String.length a + String.length suffix - String.length suffix)
    with (String.length a) by lia.
  by rewrite skip_app, bool_decide_true.
Qed.

Lemma file_path_png t : endswith ".png" (file_path t) = true.
Proof.
  unfold file_path. rewrite <- !string_app_assoc. apply endswith_app.
Qed.

Lemma archive_path_png t now : endswith ".png" (archive_path t now) = true.
Proof.
  unfold archive_path. rewrite <- !string_app_assoc. apply endswith_app.
Qed.

End Paths.

#[local] Arguments String.append : simpl never.

(** X7. The path conventions of lines 108 and 113 do not collide: two
    sheets have the same target path only if they have the same title, the
    archive path of a sheet is never its target path, and, for titles
    without a slash, the archive path of a sheet is the target path of no
    sheet and determines the title and the timestamp. *)
Theorem paths_do_not_collide t t' now now' :
  (file_path t = file_path t' → t = t')
  ∧ archive_path t now ≠ file_path t
  ∧ (occurs "/" t = false → occurs "/" t' = false →
     archive_path t now ≠ file_path t'
     ∧ (archive_path t now = archive_path t' now' → t = t' ∧ now = now')).
Proof.
  split_and!.
  - apply file_path_inj.
  - apply archive_path_ne.
  - intros Ht Ht'. split; [by apply archive_path_not_target | by apply archive_path_inj].
Qed.

Lemma paths_do_not_collide_witness :
  archive_path "Q3" Scenario.clock ≠ file_path "Q4"
  ∧ (archive_path "Q3" Scenario.clock = archive_path "Q4" Scenario.clock →
     "Q3" = "Q4" ∧ Scenario.clock = Scenario.clock).
Proof.
  apply (proj2 (proj2 (paths_do_not_collide "Q3" "Q4" Scenario.clock Scenario.clock)));
    reflexivity.
Defined.

(** ** What the image loop leaves alone *)

Section Untouched.

Implicit Types (w : world) (name t now : string) (m : gmap string content).

Lemma replay_other name (evs : list event) m :
  Forall (λ e, writes name e = false) evs → replay evs m !! name = m !! name.
Proof.
  intros H. revert m. induction H as [|e evs He _ IH]; intros m; [done |].
  unfold replay in *; simpl. rewrite IH.
  destruct e as [| | | | | | src dst [] | p [] | p d []]; simpl in *; try done;
    apply bool_decide_eq_false in He.
  - destruct (m !! src); [|done]. by rewrite lookup_insert_ne.
  - by rewrite lookup_delete_ne.
  - by rewrite lookup_insert_ne.
Qed.

Lemma sheet_event_writes now t name e :
  sheet_event now t e = true → writes name e = true →
  name = file_path t ∨ name = archive_path t now.
Proof.
  destruct e as [| | | | | | src dst [] | p [] | p d []]; simpl; try done.
  - intros [_ Hd]%andb_true_iff Hn.
    apply bool_decide_eq_true in Hd, Hn. right. congruence.
  - intros Hp Hn. apply bool_decide_eq_true in Hp, Hn. left. congruence.
  - intros Hp Hn. apply bool_decide_eq_true in Hp, Hn. left. congruence.
Qed.

Lemma sheet_events_leave name now (sheets : list worksheet) (evs : list event) :
  (∀ sheet, sheet ∈ sheets →
     name ≠ file_path (title sheet) ∧ name ≠ archive_path (title sheet) now) →
  Forall (λ e, ∃ sheet, sheet ∈ sheets ∧ sheet_event now (title sheet) e = true) evs →
  Forall (λ e, writes name e = false) evs.
Proof.
  intros Hname HQ. eapply Forall_impl; [exact HQ |]. intros e (sheet & Hin & He).
  destruct (writes name e) eqn:Hw; [|done].
  destruct (Hname _ Hin) as [H1 H2].
  by destruct (sheet_event_writes _ _ _ _ He Hw).
Qed.

End Untouched.

(** X8. An invocation never creates, changes or deletes a blob whose name
    does not end in [.png]: whatever the outcome, such a name holds after
    the invocation what it held before.  The workbook that was read, stored
    under a name ending in [.xlsx], is among them. *)
Theorem only_png_blobs_are_written container_name current_time req w name :
  endswith ".png" name = false →
  blobs (main container_name current_time req w).2 !! name = blobs w !! name.
Proof.
  intros Hname.
  destruct (main container_name current_time req w) as [out w'] eqn:E. simpl.
  destruct (main_runs _ _ _ _ _ _ E)
    as [w' _ _ Hb _ _ | n w' _ _ Hb _ _ | n c e w' _ _ _ Hb _ _
        | n c df0 df w' _ _ _ _ Hb _
        | n wb df0 df evs w' _ _ _ _ HQ Hb _ _
        | n wb df0 df before s after evs w' _ _ _ _ HQ Hb _ _ _ _]; rewrite Hb; try done.
  - apply replay_other.
    apply (sheet_events_leave _ current_time (image_sheets wb)); [|done].
    intros sheet _. split; intros ->.
    + by rewrite file_path_png in Hname.
    + by rewrite archive_path_png in Hname.
  - apply replay_other.
    apply (sheet_events_leave _ current_time before); [|done].
    intros sheet _. split; intros ->.
    + by rewrite file_path_png in Hname.
    + by rewrite archive_path_png in Hname.
Qed.

Lemma only_png_blobs_are_written_witness :
  let w := Scenario.start Scenario.book [] [] in
  blobs (main "reports" Scenario.clock Scenario.alice w).2
    !! "DATASET/Current_alice@example.com.xlsx"
  = blobs w !! "DATASET/Current_alice@example.com.xlsx".
Proof.
  intros w. apply only_png_blobs_are_written. reflexivity.
Defined.

(** X9. The scan of one sheet does not touch the target path or any archive
    path of a sheet with another title, for titles without a slash: the
    images of different sheets are published independently. *)
Theorem sheets_do_not_interfere current_time sheet other w :
  occurs "/" (title sheet) = false → occurs "/" other = false →
  other ≠ title sheet →
  let w' := (scan_sheet current_time sheet w).2 in
  blobs w' !! file_path other = blobs w !! file_path other
  ∧ ∀ now, blobs w' !! archive_path other now = blobs w !! archive_path other now.
Proof.
  intros Ht Ho Hne w'. subst w'.
  destruct (scan_sheet current_time sheet w) as [r w'] eqn:E.
  destruct (logged_scan_sheet _ _ _ _ _ E) as (evs & _ & HQ & Hb & _). simpl.
  rewrite Hb.
  assert (∀ name, name ≠ file_path (title sheet) →
                  name ≠ archive_path (title sheet) current_time →
                  replay evs (blobs w) !! name = blobs w !! name) as Hkeep.
  { intros name H1 H2. apply replay_other. eapply Forall_impl; [exact HQ |].
    intros e He. simpl in He. destruct (writes name e) eqn:Hw; [|done].
    by destruct (sheet_event_writes _ _ _ _ He Hw). }
  split; [|intros now]; apply Hkeep.
  - by intros ?%file_path_inj.
  - intros H. symmetry in H. by apply archive_path_not_target in H.
  - by apply archive_path_not_target.
  - intros H. by apply archive_path_inj in H as [? _].
Qed.

Lemma sheets_do_not_interfere_witness :
  let w := Scenario.start Scenario.book [("DATASET/Q4/Q4.png", Bytes "kept")] [] in
  let w' := (scan_sheet Scenario.clock Scenario.q3 w).2 in
  blobs w' !! file_path "Q4" = blobs w !! file_path "Q4"
  ∧ ∀ now, blobs w' !! archive_path "Q4" now = blobs w !! archive_path "Q4" now.
Proof.
  intros w w'.
  apply (sheets_do_not_interfere Scenario.clock Scenario.q3 "Q4" w);
    [reflexivity | reflexivity | discriminate].
Defined.

(** ** Responses and the table *)

(** X10. A response of [main] is one of three: 200 with the success body,
    404 with the body naming the identifier, or 500 with the fixed failure
    body. *)
Theorem response_is_one_of_three container_name current_time req w body code :
  (main container_name current_time req w).1 = Returned (HttpResponse body code) →
  (code = 200 ∧ body = success_body)
  ∨ (code = 404 ∧ body = "No file found for user " +:+ fmt (email req))
  ∨ (code = 500 ∧ body = "Database upload failed.").
Proof.
  destruct (main container_name current_time req w) as [out w'] eqn:E. simpl.
  destruct (main_runs _ _ _ _ _ _ E); intros [= <- <-]; auto.
Qed.

Lemma response_is_one_of_three_witness :
  (200 = 200 ∧ success_body = success_body)
  ∨ (200 = 404 ∧ success_body = "No file found for user " +:+ fmt (email Scenario.alice))
  ∨ (200 = 500 ∧ success_body = "Database upload failed.").
Proof.
  apply (response_is_one_of_three "reports" Scenario.clock Scenario.alice
           (Scenario.start Scenario.book [] [])).
  vm_compute. reflexivity.
Defined.



(** X12. A located workbook without a sheet named [Sheet1] ends the
    invocation with the [ValueError] of line 58, which nothing handles: no
    response is returned, nothing is appended to the table, no blob is
    touched, and the log has neither a database line nor an image line. *)
Theorem workbook_without_Sheet1_is_unhandled container_name current_time req w name wb :
  first_match (email req) (list_blobs "DATASET/Current" w) = Some (name, Xlsx wb) →
  Forall (λ s, title s ≠ "Sheet1") wb →
  ∃ w',
    main container_name current_time req w
    = (Unhandled (ValueError "Worksheet named 'Sheet1' not found"), w')
    ∧ blobs w' = blobs w
    ∧ table_DATASET w' = table_DATASET w
    ∧ Forall (λ ev, image_event ev = false ∧ ∀ rows ok, ev ≠ ToSql rows ok) (new_log w w').
Proof.
  intros Hf Hwb.
  assert (read_excel (Xlsx wb) "Sheet1"
          = Raise (ValueError "Worksheet named 'Sheet1' not found")) as Hr.
  { simpl. destruct (List.find _ wb) as [s|] eqn:Efind; [|reflexivity].
    apply find_some in Efind as [Hs Ht]. apply list_elem_of_In in Hs.
    rewrite Forall_forall in Hwb. apply Hwb in Hs. by case_bool_decide. }
  destruct (main container_name current_time req w) as [out w'] eqn:E. exists w'.
  destruct (main_runs _ _ _ _ _ _ E)
    as [w' Hf' _ _ _ _ | n w' Hf' _ _ _ _ | n c' e' w' Hf' He Hl Hb Ht _
        | n c' df0 df w' Hf' Hr' _ _ _ _
        | n wb' df0 df evs w' Hf' Hr' _ _ _ _ _ _
        | n wb' df0 df before s after evs w' Hf' Hr' _ _ _ _ _ _ _ _];
    rewrite Hf in Hf'; simplify_eq; try congruence.
  rewrite Hr in He. simplify_eq. split_and!; try done.
  rewrite Hl. by repeat constructor.
Qed.

Lemma workbook_without_Sheet1_is_unhandled_witness :
  let wb := [Scenario.plain_sheet "Data" Scenario.orders] in
  let w := Scenario.start wb [] [] in
  ∃ w',
    main "reports" Scenario.clock Scenario.alice w
    = (Unhandled (ValueError "Worksheet named 'Sheet1' not found"), w')
    ∧ blobs w' = blobs w
    ∧ table_DATASET w' = table_DATASET w
    ∧ Forall (λ ev, image_event ev = false ∧ ∀ rows ok, ev ≠ ToSql rows ok) (new_log w w').
Proof.
  intros wb w.
  refine (workbook_without_Sheet1_is_unhandled "reports" Scenario.clock Scenario.alice w
            "DATASET/Current_alice@example.com.xlsx" wb _ _).
  - vm_compute. reflexivity.
  - repeat constructor. vm_compute. discriminate.
Defined.

(** ** Runs in which no remote call fails *)

Section Calm.

Lemma publish_calm now t png w :
  faults w = [] →
  ∃ w', publish now t png w = (Ok tt, w') ∧ faults w' = []
        ∧ blobs w' = published now t png (blobs w).
Proof.
  intros Hf.
  assert (∃ w', publish now t png w = (Ok tt, w') ∧ faults w' = []) as (w' & E & Hf').
  { unfold publish, mbind, M_bind, blob_exists, start_copy_from_url, delete_blob,
      upload_blob, tell, mret, M_ret, next_call. rewrite Hf. simpl.
    destruct (blobs w !! file_path t) as [old|] eqn:Eold; simpl.
    - rewrite Eold. simpl.
      rewrite lookup_insert_ne by apply archive_path_ne.
      rewrite Eold. simpl. eauto.
    - eauto. }
  exists w'. split_and!; [done | done |].
  pose proof (publish_Ok _ _ _ _ _ E) as H. unfold published.
  destruct (blobs w !! file_path t); by destruct H.
Qed.

Lemma scan_row_calm now t row w :
  faults w = [] →
  ∃ w', scan_row now t row w = (Ok tt, w') ∧ faults w' = []
        ∧ blobs w' = match first_readable row with
                     | Some png => published now t png (blobs w)
                     | None => blobs w
                     end.
Proof.
  revert w. induction row as [|c rest IH]; intros w Hf; [by exists w |].
  simpl. destruct (candidate c) eqn:Hc; [|by apply IH].
  unfold mbind, M_bind, try_, attempt, image_get.
  destruct (embedded c) as [[png|]|] eqn:Ec; simpl.
  - destruct (publish_calm now t png (emit (ImageGet t (coordinate c) true) w) Hf)
      as (w' & E & Hf' & Hb).
    unfold mbind, M_bind, tell, mret, M_ret. rewrite E. by exists w'.
  - apply (IH (emit _ (emit _ w))). done.
  - apply (IH (emit _ (emit _ w))). done.
Qed.

End Calm.

(** X13. While no remote call fails, the scan of a sheet whose loader is
    built ends normally and changes the container row by row: each row
    publishes one picture, the one that the loader holds for the leftmost
    cell of the row that passes the test of line 101 and can be read, and a
    row without such a cell changes nothing.  Cells to the right of the
    published one are not published, and the guarded copy and delete of
    lines 112 to 114 never raise on their own.  A sheet whose loader cannot
    be built is not scanned at all: line 98 raises and the container is as
    before. *)
Theorem calm_sheet_publishes_leftmost_pictures current_time sheet w :
  faults w = [] →
  (loads sheet = true →
   ∃ w',
     scan_sheet current_time sheet w = (Ok tt, w')
     ∧ faults w' = []
     ∧ blobs w'
       = fold_left (λ m row, match first_readable row with
                             | Some png => published current_time (title sheet) png m
                             | None => m
                             end)
                   (iter_rows sheet) (blobs w))
  ∧ (loads sheet = false →
     scan_sheet current_time sheet w
     = (Raise (IndexError "string index out of range"), w)).
Proof.
  intros Hf. split; [|apply scan_sheet_fails].
  intros Hs. rewrite scan_sheet_loaded by done.
  generalize (iter_rows sheet) as rows. intros rows. revert w Hf.
  induction rows as [|row rows IH]; intros w Hf; [by exists w |].
  destruct (scan_row_calm current_time (title sheet) row w Hf) as (w1 & E1 & Hf1 & Hb1).
  destruct (IH w1 Hf1) as (w' & E & Hf' & Hb).
  exists w'. simpl. unfold mbind, M_bind. rewrite E1, E. split_and!; [done | done |].
  by rewrite Hb, Hb1.
Qed.

Lemma calm_sheet_publishes_leftmost_pictures_witness :
  let w := Scenario.start Scenario.book [("DATASET/Q3/Q3.png", Bytes "before")] [] in
  ∃ w',
    scan_sheet Scenario.clock Scenario.q3 w = (Ok tt, w')
    ∧ faults w' = []
    ∧ blobs w'
      = fold_left (λ m row, match first_readable row with
                            | Some png => published Scenario.clock (title Scenario.q3) png m
                            | None => m
                            end)
                  (iter_rows Scenario.q3) (blobs w).
Proof.
  intros w.
  apply (proj1 (calm_sheet_publishes_leftmost_pictures Scenario.clock Scenario.q3 w
                  eq_refl)).
  reflexivity.
Defined.

(** ** The object locator *)

#[local] Arguments String.append : simpl nomatch.

Section Substring.

Implicit Types (e a b name : string).

Lemma contains_startswith e name : startswith e name = true → contains e name = true.
Proof. intros H. destruct name; simpl in *; by rewrite H. Qed.

Lemma contains_infix e a b : contains e (a +:+ e +:+ b) = true.
Proof.
  induction a as [|c a IH]; simpl.
  - apply contains_startswith, startswith_refl_app.
  - rewrite IH. apply orb_true_r.
Qed.

Lemma contains_split e name :
  contains e name = true → ∃ a b, name = a +:+ e +:+ b.
Proof.
  induction name as [|c name IH].
  - simpl. rewrite orb_false_r. intros H%startswith_split. by exists "", (skip (String.length e) "").
  - rewrite contains_cons. intros [H%startswith_split | (a & b & ->)%IH]%orb_true_iff.
    + by exists "", (skip (String.length e) (String c name)).
    + by exists (String c a), b.
Qed.

Lemma locate_first user_email pre name c post w :
  Forall (λ blob, matches user_email blob.1 = false) pre →
  matches user_email name = true →
  locate user_email (pre ++ (name, c) :: post) w
  = (Ok (Some c), emit (Info ("Found Excel file: " +:+ name)) w).
Proof.
  intros Hpre Hm. induction Hpre as [|[n c'] pre Hn _ IH]; simpl in *.
  - by rewrite Hm.
  - by rewrite Hn.
Qed.

End Substring.

#[local] Arguments String.append : simpl never.

(** X14. The test of line 46 is a substring test: a blob name is accepted
    exactly when the identifier is given, is not empty and occurs somewhere in
    the name, be it inside the listing prefix or inside a longer
    identifier. *)
Theorem identifier_matches_as_substring user_email name :
  matches user_email name = true
  ↔ ∃ e a b, user_email = Some e ∧ e ≠ "" ∧ name = a +:+ e +:+ b.
Proof.
  unfold matches. split.
  - destruct user_email as [[|c e]|]; simpl; try done.
    intros (a & b & ->)%contains_split. by exists (String c e), a, b.
  - intros (e & a & b & -> & He & ->). destruct e as [|c e]; [done |].
    change (truthy (Some (String c e))) with true. apply contains_infix.
Qed.

(** X15. The first listed blob that passes the test of line 46 is the one
    downloaded, with one log line naming it; the blobs listed after it are
    not looked at, whether they pass the test or not. *)
Theorem first_listed_match_is_taken user_email pre name c post w :
  Forall (λ blob, matches user_email blob.1 = false) pre →
  matches user_email name = true →
  locate user_email (pre ++ (name, c) :: post) w
  = (Ok (Some c), emit (Info ("Found Excel file: " +:+ name)) w)
  ∧ first_match user_email (pre ++ (name, c) :: post) = Some (name, c).
Proof.
  intros Hpre Hm. split; [by apply locate_first |].
  unfold first_match. induction Hpre as [|[n c'] pre Hn _ IH]; simpl in *.
  - by rewrite Hm.
  - by rewrite Hn.
Qed.

Lemma first_listed_match_is_taken_witness :
  let w := Scenario.start Scenario.book [] [] in
  let listing := [("DATASET/Current_bob.xlsx", Bytes "b");
                  ("DATASET/Current_alice@example.com.xlsx", Xlsx Scenario.book);
                  ("DATASET/Current_alice@example.com (2).xlsx", Bytes "later")] in
  locate (Some "alice@example.com") listing w
  = (Ok (Some (Xlsx Scenario.book)),
     emit (Info ("Found Excel file: " +:+ "DATASET/Current_alice@example.com.xlsx")) w)
  ∧ first_match (Some "alice@example.com") listing
    = Some ("DATASET/Current_alice@example.com.xlsx", Xlsx Scenario.book).
Proof.
  intros w listing.
  apply (first_listed_match_is_taken (Some "alice@example.com")
           [("DATASET/Current_bob.xlsx", Bytes "b")]
           "DATASET/Current_alice@example.com.xlsx" (Xlsx Scenario.book)
           [("DATASET/Current_alice@example.com (2).xlsx", Bytes "later")] w).
  - repeat constructor.
  - reflexivity.
Defined.
